(** * Chicago crimes dashboard: loader and period aggregator

    A shallow embedding of [chicago_crimes_dashboard.py].  The script is one
    straight-line Streamlit page; the embedding splits it into the functions
    that its variables name ([load_data], [week_start], [filtered_df],
    [arrest_rate], [most_common_crime], [day_data], [map_df], ...) and leaves
    the chart and layout calls out.

    Conventions.
    - Python exceptions are values of [exn]; fallible code returns [result].
    - A [datetime.date] is its proleptic Gregorian ordinal (what
      [date.toordinal()] returns); CPython's date arithmetic and comparison
      go through that number.
    - Counts are [Z] (Python [int]); rates are exact rationals [Q], the
      rounding of binary floating point is not modelled.
    - A row is a record of the cells found under the columns that the page
      reads; [None] is pandas' NaN / missing value. *)

From Stdlib Require Import ZArith QArith Bool List Lia.
From Stdlib Require Import Ascii String DecimalString.
From Stdlib Require Import Permutation Sorted OrderedTypeEx.
Import ListNotations.

Local Open Scope string_scope.
Local Open Scope Z_scope.

(** ** Exceptions and fallible results *)

Inductive exn : Type :=
| FileNotFoundError
| PermissionError
| EmptyDataError
| ParserError
| KeyError (key : string)
| ValueError
| IndexError
| OverflowError
| ZeroDivisionError.

Inductive result (A : Type) : Type :=
| Ok (a : A)
| Raise (e : exn).

Arguments Ok {A} a.
Arguments Raise {A} e.

Definition bind {A B : Type} (m : result A) (k : A -> result B) : result B :=
  match m with
  | Ok a => k a
  | Raise e => Raise e
  end.

Notation "x <- m ;; k" := (bind m (fun x => k))
  (at level 61, m at next level, right associativity).

Definition raises {A : Type} (m : result A) : Prop :=
  exists e, m = Raise e.

Definition len {A : Type} (l : list A) : Z := Z.of_nat (List.length l).

(** ** Calendar dates *)

Module Calendar.

(** [datetime.MAXYEAR] is 9999; [date.max.toordinal()] is 3652059. *)
Definition MAXORDINAL : Z := 3652059.

Definition date : Type := Z.

Definition is_leap (y : Z) : bool :=
  (y mod 4 =? 0) && (negb (y mod 100 =? 0) || (y mod 400 =? 0)).

Definition days_before_year (y : Z) : Z :=
  let y' := y - 1 in y' * 365 + y' / 4 - y' / 100 + y' / 400.

Definition days_in_month (y m : Z) : Z :=
  if m =? 2 then (if is_leap y then 29 else 28)
  else if (m =? 4) || (m =? 6) || (m =? 9) || (m =? 11) then 30
  else 31.

Fixpoint days_before_month_aux (y : Z) (m : nat) : Z :=
  match m with
  | O => 0
  | S m' => days_before_month_aux y m' + days_in_month y (Z.of_nat m)
  end.

(** Days in year [y] before the first day of month [m] (1-based). *)
Definition days_before_month (y m : Z) : Z :=
  days_before_month_aux y (Z.to_nat (m - 1)).

(** [date(y, m, d).toordinal()]: 0001-01-01 is day 1. *)
Definition ymd2ord (y m d : Z) : date :=
  days_before_year y + days_before_month y m + d.

(** [date.weekday()]: Monday is 0, Sunday is 6. *)
Definition weekday (d : date) : Z := (d + 6) mod 7.

(** [d + timedelta(days=n)]: the sum of ordinals, [OverflowError] when it
    leaves [date.min .. date.max]. *)
Definition add_days (d : date) (n : Z) : result date :=
  let o := d + n in
  if (1 <=? o) && (o <=? MAXORDINAL) then Ok o else Raise OverflowError.

Definition sub_days (d : date) (n : Z) : result date := add_days d (- n).

End Calendar.

Import Calendar.

(** ** Weekly period (lines 84-88) *)

(** [week_start = selected_date - timedelta(days=selected_date.weekday())] *)
Definition week_start (selected_date : Calendar.date) : result Calendar.date :=
  sub_days selected_date (weekday selected_date).

(** [week_end = week_start + timedelta(days=6)] *)
Definition week_end (selected_date : Calendar.date) : result Calendar.date :=
  ws <- week_start selected_date ;; add_days ws 6.

(** ** Sorting *)

(** The sorts of the page ([sorted], [sort_values], the ordering steps of
    [value_counts] and [groupby]) as one stable insertion sort: among
    elements that [leb] ranks equal, the one that came first stays first. *)
Section StableSort.
Context {A : Type} (leb : A -> A -> bool).

Fixpoint insert_by (x : A) (l : list A) : list A :=
  match l with
  | [] => [x]
  | y :: l' => if leb x y then x :: l else y :: insert_by x l'
  end.

Definition sort_by (l : list A) : list A := fold_right insert_by [] l.
End StableSort.

(** ** Column names (line 25) *)

(** [str.isspace] on the ASCII range: tab, LF, VT, FF, CR, the four
    separators 0x1c-0x1f and the space.  The regular expression class [\s]
    on [str] patterns accepts the same characters. *)
Definition isspace (c : ascii) : bool :=
  let n := N_of_ascii c in
  (((9 <=? n) && (n <=? 13)) || ((28 <=? n) && (n <=? 32)))%N.

Fixpoint lstrip (s : string) : string :=
  match s with
  | EmptyString => EmptyString
  | String c t => if isspace c then lstrip t else s
  end.

(** Characters of [s] kept by [str.rstrip]: a whitespace character stays
    only when something that is not whitespace follows it. *)
Fixpoint rstrip (s : string) : string :=
  match s with
  | EmptyString => EmptyString
  | String c t =>
      match rstrip t with
      | EmptyString => if isspace c then EmptyString else String c EmptyString
      | t' => String c t'
      end
  end.

(** [str.strip()] *)
Definition strip (s : string) : string := rstrip (lstrip s).

(** [re.sub(r'\s+', ' ', s)]: [in_run] tells that the previous character
    belonged to a whitespace run already replaced by one space. *)
Fixpoint collapse_from (in_run : bool) (s : string) : string :=
  match s with
  | EmptyString => EmptyString
  | String c t =>
      if isspace c
      then (if in_run then collapse_from true t
            else String " "%char (collapse_from true t))
      else String c (collapse_from false t)
  end.

Definition collapse (s : string) : string := collapse_from false s.

(** [df.columns.str.strip().str.replace(r'\s+', ' ', regex=True)], one name *)
Definition clean_column (name : string) : string := collapse (strip name).

(** What the specification asks of a normalised name: no whitespace at
    either end, and inside only single plain spaces.  [after_space] tells
    that the previous character was a space (or that the name starts
    here). *)
Fixpoint normalized_from (after_space : bool) (s : string) : bool :=
  match s with
  | EmptyString => negb after_space
  | String c t =>
      if isspace c
      then negb after_space && Ascii.eqb c " " && normalized_from true t
      else normalized_from false t
  end.

Definition normalized (s : string) : bool :=
  match s with
  | EmptyString => true
  | _ => normalized_from true s
  end.

(** The last character of [s], if any, is not whitespace. *)
Fixpoint ends_clean (s : string) : bool :=
  match s with
  | EmptyString => true
  | String c EmptyString => negb (isspace c)
  | String _ t => ends_clean t
  end.

(** [date_col = 'DATE OF OCCURRENCE'] *)
Definition date_col : string := "DATE OF OCCURRENCE".

(** The column names that the page reads after loading. *)
Definition read_columns : list string :=
  [ date_col; "ARREST"; "DOMESTIC"; "PRIMARY DESCRIPTION";
    "LOCATION DESCRIPTION"; "LATITUDE"; "LONGITUDE"; "WARD";
    "date"; "hour"; "day_of_week"; "month" ].

(** ** Timestamps and derived calendar fields (lines 34-37) *)

(** A parsed [pandas.Timestamp], by its calendar fields. *)
Record Timestamp : Type := mkTimestamp {
  ts_year : Z;
  ts_month : Z;
  ts_day : Z;
  ts_hour : Z;
  ts_minute : Z;
  ts_second : Z
}.

(** [day_order], line 185; also the names [dt.day_name()] returns, by
    [weekday()]. *)
Definition day_order : list string :=
  [ "Monday"; "Tuesday"; "Wednesday"; "Thursday"; "Friday"; "Saturday";
    "Sunday" ].

Definition digit (n : Z) : ascii := ascii_of_N (48 + Z.to_N (n mod 10)).

Definition pad2 (n : Z) : string :=
  String (digit (n / 10)) (String (digit n) EmptyString).

Definition pad4 (n : Z) : string :=
  String (digit (n / 1000)) (String (digit (n / 100)) (pad2 n)).

(** [.dt.date] *)
Definition dt_date (t : Timestamp) : Calendar.date :=
  ymd2ord (ts_year t) (ts_month t) (ts_day t).

(** [.dt.hour] *)
Definition dt_hour (t : Timestamp) : Z := ts_hour t.

(** [.dt.day_name()] *)
Definition dt_day_name (t : Timestamp) : string :=
  nth (Z.to_nat (weekday (dt_date t))) day_order "".

(** [.dt.to_period('M').astype(str)], for instance ["2024-03"] *)
Definition dt_month (t : Timestamp) : string :=
  pad4 (ts_year t) ++ "-" ++ pad2 (ts_month t).

(** ** Rows *)

(** A row as [pd.read_csv] returns it: the cells under the columns that the
    page reads.  [None] is a missing value. *)
Record RawRow : Type := mkRawRow {
  raw_DATE_OF_OCCURRENCE : option string;
  raw_PRIMARY_DESCRIPTION : option string;
  raw_LOCATION_DESCRIPTION : option string;
  raw_ARREST : option string;
  raw_DOMESTIC : option string;
  raw_WARD : option string;
  raw_LATITUDE : option Q;
  raw_LONGITUDE : option Q
}.

(** A row of the loaded frame: the timestamp is parsed and the four derived
    columns are filled in. *)
Record Row : Type := mkRow {
  DATE_OF_OCCURRENCE : Timestamp;
  PRIMARY_DESCRIPTION : option string;
  LOCATION_DESCRIPTION : option string;
  ARREST : option string;
  DOMESTIC : option string;
  WARD : option string;
  LATITUDE : option Q;
  LONGITUDE : option Q;
  date : Calendar.date;
  hour : Z;
  day_of_week : string;
  month : string
}.

Record RawFrame : Type := mkRawFrame {
  raw_columns : list string;
  raw_rows : list RawRow
}.

Record DataFrame : Type := mkDataFrame {
  columns : list string;
  rows : list Row
}.

(** ** Loading (lines 18-39) *)

Definition count_name (key : string) (cols : list string) : nat :=
  List.length (filter (String.eqb key) cols).

(** [df[key]] as far as the column labels decide it: a missing label is a
    [KeyError]; a label carried by several columns selects a frame, which
    [pd.to_datetime] refuses ("cannot assemble with duplicate keys"). *)
Definition getitem_series (cols : list string) (key : string) : result unit :=
  match count_name key cols with
  | O => Raise (KeyError key)
  | S O => Ok tt
  | _ => Raise ValueError
  end.

(** [df[key] = ...]: an existing label is overwritten in place, a new one
    is appended. *)
Definition setitem (cols : list string) (key : string) : list string :=
  if existsb (String.eqb key) cols then cols else cols ++ [key].

(** [df.dropna(subset=[date_col])] after the timestamps were parsed: rows
    whose timestamp is NaT go away. *)
Fixpoint dropna_date (l : list (RawRow * option Timestamp))
  : list (RawRow * Timestamp) :=
  match l with
  | [] => []
  | (r, Some t) :: l' => (r, t) :: dropna_date l'
  | (_, None) :: l' => dropna_date l'
  end.

(** Lines 34-37 for one row. *)
Definition derive (rt : RawRow * Timestamp) : Row :=
  let (r, t) := rt in
  {| DATE_OF_OCCURRENCE := t;
     PRIMARY_DESCRIPTION := raw_PRIMARY_DESCRIPTION r;
     LOCATION_DESCRIPTION := raw_LOCATION_DESCRIPTION r;
     ARREST := raw_ARREST r;
     DOMESTIC := raw_DOMESTIC r;
     WARD := raw_WARD r;
     LATITUDE := raw_LATITUDE r;
     LONGITUDE := raw_LONGITUDE r;
     date := dt_date t;
     hour := dt_hour t;
     day_of_week := dt_day_name t;
     month := dt_month t |}.

(** The type of [pd.to_datetime(column, errors='coerce')]: one entry per
    cell, [None] (NaT) where the cell does not parse. *)
Definition parser : Type := list (option string) -> list (option Timestamp).

(** [load_data()].  [read_csv] is what [pd.read_csv(csv_path)] returned or
    raised. *)
Definition load_data (to_datetime : parser) (read_csv : result RawFrame)
  : result DataFrame :=
  df <- read_csv ;;
  let cols := map clean_column (raw_columns df) in
  _ <- getitem_series cols date_col ;;
  let parsed := to_datetime (map raw_DATE_OF_OCCURRENCE (raw_rows df)) in
  let kept := dropna_date (combine (raw_rows df) parsed) in
  Ok {| columns :=
          fold_left setitem ["date"; "hour"; "day_of_week"; "month"] cols;
        rows := map derive kept |}.

(** ** Period selection (lines 58-103) *)

Inductive view_mode : Type := Daily | Weekly | Monthly.

(** What the sidebar widget hands back: a date for the daily and weekly
    views, the month token of the select box (or nothing, when the box has
    no option) for the monthly view. *)
Inductive selection : Type :=
| SelectDay (selected_date : Calendar.date)
| SelectWeek (selected_date : Calendar.date)
| SelectMonth (selected_month : option string).

Definition mode_of (sel : selection) : view_mode :=
  match sel with
  | SelectDay _ => Daily
  | SelectWeek _ => Weekly
  | SelectMonth _ => Monthly
  end.

(** [time_grouping] *)
Definition time_grouping (sel : selection) : string :=
  match sel with
  | SelectDay _ => "hour"
  | SelectWeek _ => "day_of_week"
  | SelectMonth _ => "date"
  end.

(** [series == value] for a text cell; NaN equals nothing. *)
Definition cell_eqb (c : option string) (v : string) : bool :=
  match c with
  | Some s => String.eqb s v
  | None => false
  end.

(** [df[df['date'] == selected_date]] *)
Definition filter_day (df : list Row) (selected_date : Calendar.date)
  : list Row :=
  filter (fun r => date r =? selected_date) df.

(** [df[(df['date'] >= week_start) & (df['date'] <= week_end)]] *)
Definition filter_range (df : list Row) (first last : Calendar.date)
  : list Row :=
  filter (fun r => (date r >=? first) && (date r <=? last)) df.

(** [df[df['month'] == selected_month]] *)
Definition filter_month (df : list Row) (selected_month : option string)
  : list Row :=
  filter (fun r => cell_eqb selected_month (month r)) df.

(** Python's [<] on [str] (ASCII strings compare by character code). *)
Definition str_ltb (a b : string) : bool :=
  match String.compare a b with
  | Lt => true
  | _ => false
  end.

(** [series.unique()]: the distinct values in order of first appearance. *)
Fixpoint unique_from (seen : list string) (s : list string) : list string :=
  match s with
  | [] => []
  | x :: t =>
      if existsb (String.eqb x) seen then unique_from seen t
      else x :: unique_from (x :: seen) t
  end.

Definition unique (s : list string) : list string := unique_from [] s.

(** [sorted(xs, reverse=True)] on strings: [x] goes before [y] unless
    [x < y]. *)
Definition sorted_reverse (l : list string) : list string :=
  sort_by (fun x y => negb (str_ltb x y)) l.

(** [months = sorted(df['month'].unique(), reverse=True)] *)
Definition months (df : list Row) : list string :=
  sorted_reverse (unique (map month df)).

(** [st.sidebar.selectbox("Select Month:", months)]: the option at the
    position the user picked, nothing when there is no option. *)
Definition selectbox (options : list string) (picked : nat) : option string :=
  nth_error options picked.

(** The three branches of lines 58-103, up to [filtered_df]. *)
Definition filtered_df (df : list Row) (sel : selection) : result (list Row) :=
  match sel with
  | SelectDay selected_date => Ok (filter_day df selected_date)
  | SelectWeek selected_date =>
      ws <- week_start selected_date ;;
      we <- add_days ws 6 ;;
      Ok (filter_range df ws we)
  | SelectMonth selected_month => Ok (filter_month df selected_month)
  end.

(** ** Key figures (lines 111-121, 153) *)

Definition total_crimes (filtered : list Row) : Z := len filtered.

(** [len(filtered_df[filtered_df['ARREST'] == 'Y'])] *)
Definition arrests_made (filtered : list Row) : Z :=
  len (filter (fun r => cell_eqb (ARREST r) "Y") filtered).

(** [len(filtered_df[filtered_df['DOMESTIC'] == 'Y'])] *)
Definition domestic_crimes (filtered : list Row) : Z :=
  len (filter (fun r => cell_eqb (DOMESTIC r) "Y") filtered).

(** Python's [a / b] on integers. *)
Definition truediv (a b : Z) : result Q :=
  if b =? 0 then Raise ZeroDivisionError
  else Ok (inject_Z a / inject_Z b)%Q.

(** [(part / total_crimes * 100) if total_crimes > 0 else 0] *)
Definition rate (part total : Z) : result Q :=
  if total >? 0
  then (q <- truediv part total ;; Ok (q * 100)%Q)
  else Ok 0%Q.

Definition arrest_rate (filtered : list Row) : result Q :=
  rate (arrests_made filtered) (total_crimes filtered).

Definition domestic_rate (filtered : list Row) : result Q :=
  rate (domestic_crimes filtered) (total_crimes filtered).

(** ** Counting values *)

(** [series.dropna()] on a text column *)
Fixpoint dropna (s : list (option string)) : list string :=
  match s with
  | [] => []
  | Some v :: t => v :: dropna t
  | None :: t => dropna t
  end.

(** One step of the counting loop: the entry of [k] goes up by one, a key
    seen for the first time is added at the end. *)
Fixpoint bump (k : string) (table : list (string * Z)) : list (string * Z) :=
  match table with
  | [] => [(k, 1)]
  | (k', n) :: t =>
      if String.eqb k k' then (k', n + 1) :: t else (k', n) :: bump k t
  end.

(** The table of counts of a column, keys in order of first appearance. *)
Definition tally (s : list string) : list (string * Z) :=
  fold_left (fun table k => bump k table) s [].

(** How often [v] occurs in a column. *)
Definition occurrences (v : string) (s : list string) : Z :=
  len (filter (String.eqb v) s).

(** The count a table records for [k], 0 when [k] has no entry. *)
Fixpoint recorded (k : string) (table : list (string * Z)) : Z :=
  match table with
  | [] => 0
  | (k', n) :: t => if String.eqb k k' then n else recorded k t
  end.

(** Descending order on the counts. *)
Definition count_geb (x y : string * Z) : bool := snd y <=? snd x.

(** [series.value_counts()]: missing values are left out, the most frequent
    value comes first. *)
Definition value_counts (s : list (option string)) : list (string * Z) :=
  sort_by count_geb (tally (dropna s)).

(** [series.nunique()] *)
Definition nunique (s : list (option string)) : Z :=
  len (unique (dropna s)).

(** [.index[0]] *)
Definition index0 (counts : list (string * Z)) : result string :=
  match counts with
  | [] => Raise IndexError
  | (k, _) :: _ => Ok k
  end.

(** Lines 118-121. *)
Definition most_common_crime (filtered : list Row) : result string :=
  if total_crimes filtered >? 0
  then index0 (value_counts (map PRIMARY_DESCRIPTION filtered))
  else Ok "N/A".

(** How many of the filtered rows carry the description [v]. *)
Definition description_count (v : string) (filtered : list Row) : Z :=
  len (filter (fun r => cell_eqb (PRIMARY_DESCRIPTION r) v) filtered).

(** Line 153. *)
Definition unique_locations (filtered : list Row) : Z :=
  nunique (map LOCATION_DESCRIPTION filtered).

(** ** Crimes by day of week (lines 185-188) *)

(** Ascending order on the keys: [groupby] orders its groups by key. *)
Definition key_leb (x y : string * Z) : bool := negb (str_ltb (fst y) (fst x)).

(** [df.groupby(col).size().reset_index(name='count')] on a text column *)
Definition groupby_size (s : list string) : list (string * Z) :=
  sort_by key_leb (tally s).

(** The position of [v] in [categories], when it is one of them. *)
Fixpoint category_code (categories : list string) (v : string) : option nat :=
  match categories with
  | [] => None
  | c :: cs =>
      if String.eqb v c then Some O
      else option_map S (category_code cs v)
  end.

(** [pd.Categorical(values, categories=..., ordered=True)], one value: a
    value outside the categories becomes NaN. *)
Definition categorical (categories : list string) (v : string)
  : option string :=
  match category_code categories v with
  | Some _ => Some v
  | None => None
  end.

(** Where [sort_values] puts a value of an ordered categorical column: at
    its position in the categories, NaN after all of them. *)
Definition category_rank (categories : list string) (a : option string)
  : nat :=
  match a with
  | None => List.length categories
  | Some v =>
      match category_code categories v with
      | Some i => i
      | None => List.length categories
      end
  end.

Definition category_leb (categories : list string)
  (x y : option string * Z) : bool :=
  (category_rank categories (fst x) <=? category_rank categories (fst y))%nat.

(** [frame.sort_values(col)] on an ordered categorical column *)
Definition sort_values (categories : list string)
  (l : list (option string * Z)) : list (option string * Z) :=
  sort_by (category_leb categories) l.

(** Lines 186-188: the pairs (day, count) behind the weekly bar chart. *)
Definition day_data (filtered : list Row) : list (option string * Z) :=
  let grouped := groupby_size (map day_of_week filtered) in
  let typed :=
    map (fun kc => (categorical day_order (fst kc), snd kc)) grouped in
  sort_values day_order typed.

(** ** Rows for the density map (lines 228-233) *)

Definition notna {A : Type} (c : option A) : bool :=
  match c with
  | Some _ => true
  | None => false
  end.

(** [filtered_df.dropna(subset=['LATITUDE', 'LONGITUDE'])] *)
Definition dropna_coords (filtered : list Row) : list Row :=
  filter (fun r => notna (LATITUDE r) && notna (LONGITUDE r)) filtered.

(** numpy's [RandomState]: [seeded s] is [RandomState(s)];
    [choice g n k] is [g.choice(n, size=k, replace=False)], the positions
    drawn and the generator afterwards. *)
Record RandomState (G : Type) : Type := mkRandomState {
  seeded : Z -> G;
  choice : G -> Z -> Z -> list Z * G
}.

Arguments seeded {G} _ _.
Arguments choice {G} _ _ _ _.

(** [frame.take(locs)]: a position outside the frame is an [IndexError]. *)
Fixpoint take (l : list Row) (locs : list Z) : result (list Row) :=
  match locs with
  | [] => Ok []
  | i :: locs' =>
      if i <? 0 then Raise IndexError
      else match nth_error l (Z.to_nat i) with
           | None => Raise IndexError
           | Some r => rs <- take l locs' ;; Ok (r :: rs)
           end
  end.

(** [frame.sample(n, random_state=...)].  With [random_state] an integer a
    fresh generator is seeded from it and the process-wide generator
    [global] stays as it is; without, [global] is drawn from and advances. *)
Definition sample {G : Type} (rs : RandomState G) (global : G)
  (frame : list Row) (n : Z) (random_state : option Z)
  : result (list Row * G) :=
  if len frame <? n then Raise ValueError
  else
    match random_state with
    | Some s =>
        let (locs, _) := choice rs (seeded rs s) (len frame) n in
        taken <- take frame locs ;; Ok (taken, global)
    | None =>
        let (locs, g') := choice rs global (len frame) n in
        taken <- take frame locs ;; Ok (taken, g')
    end.

(** Lines 228-233. *)
Definition map_df {G : Type} (rs : RandomState G) (global : G)
  (filtered : list Row) : result (list Row * G) :=
  let map_df := dropna_coords filtered in
  if len map_df >? 5000
  then sample rs global map_df 5000 (Some 42)
  else Ok (map_df, global).

(** ** Hour bands (lines 402-410) *)

Definition categorize_hour (hour : Z) : string :=
  if (6 <=? hour) && (hour <? 12) then "Morning"
  else if (12 <=? hour) && (hour <? 18) then "Afternoon"
  else if (18 <=? hour) && (hour <? 24) then "Evening"
  else "Night".

(** ** Sample data *)

(** A parser given by a table from cell text to timestamp; text outside
    the table, and a missing cell, do not parse. *)
Fixpoint lookup_text (table : list (string * Timestamp)) (s : string)
  : option Timestamp :=
  match table with
  | [] => None
  | (k, t) :: table' => if String.eqb s k then Some t else lookup_text table' s
  end.

Definition table_parser (table : list (string * Timestamp)) : parser :=
  map (fun c => match c with
                | Some s => lookup_text table s
                | None => None
                end).

Definition sample_table : list (string * Timestamp) :=
  [ ("03/15/2024 08:00:00 AM", mkTimestamp 2024 3 15 8 0 0);
    ("03/13/2024 11:30:00 PM", mkTimestamp 2024 3 13 23 30 0);
    ("03/17/2024 01:05:00 AM", mkTimestamp 2024 3 17 1 5 0);
    ("02/29/2024 12:00:00 PM", mkTimestamp 2024 2 29 12 0 0) ].

Definition sample_parser : parser := table_parser sample_table.

Definition raw_incident (when crime place arrest domestic : string)
  (coords : option (Q * Q)) : RawRow :=
  {| raw_DATE_OF_OCCURRENCE := Some when;
     raw_PRIMARY_DESCRIPTION := Some crime;
     raw_LOCATION_DESCRIPTION := Some place;
     raw_ARREST := Some arrest;
     raw_DOMESTIC := Some domestic;
     raw_WARD := Some "27";
     raw_LATITUDE := option_map fst coords;
     raw_LONGITUDE := option_map snd coords |}.

Definition sample_header : list string :=
  [ "CASE#"; "DATE  OF OCCURRENCE"; " PRIMARY DESCRIPTION";
    "LOCATION DESCRIPTION"; "ARREST"; "DOMESTIC"; "WARD"; "LATITUDE";
    "LONGITUDE" ].

Definition theft : RawRow :=
  raw_incident "03/15/2024 08:00:00 AM" "THEFT" "STREET" "N" "N"
    (Some (41.88, -87.63)%Q).

Definition battery : RawRow :=
  raw_incident "03/13/2024 11:30:00 PM" "BATTERY" "APARTMENT" "Y" "Y" None.

Definition assault : RawRow :=
  raw_incident "03/17/2024 01:05:00 AM" "BATTERY" "STREET" "y" "true"
    (Some (41.9, -87.7)%Q).

Definition undated : RawRow :=
  raw_incident "not a date" "THEFT" "STREET" "Y" "N" None.

Definition sample_csv : RawFrame :=
  {| raw_columns := sample_header;
     raw_rows := [theft; battery; undated; assault] |}.

(** A file in which no occurrence timestamp parses. *)
Definition undated_csv : RawFrame :=
  {| raw_columns := sample_header; raw_rows := [undated; undated] |}.

(** A file with two headers that differ in whitespace only. *)
Definition twin_header_csv : RawFrame :=
  {| raw_columns := sample_header ++ [" ARREST  "];
     raw_rows := [theft; battery] |}.

(** The rows [load_data] keeps of [sample_csv]. *)
Definition sample_rows : list Row :=
  match load_data sample_parser (Ok sample_csv) with
  | Ok df => rows df
  | Raise _ => []
  end.

(** A row of the daily scenario with its ARREST cell set. *)
Definition arrested_row : Row :=
  derive (raw_incident "03/15/2024 08:00:00 AM" "THEFT" "STREET" "Y" "N" None,
          mkTimestamp 2024 3 15 8 0 0).

(** A generator that draws the first [k] positions and counts its draws. *)
Definition counting_rng : RandomState Z :=
  {| seeded := fun s => s;
     choice := fun g n k =>
       (map Z.of_nat (seq 0 (Z.to_nat k)), g + 1) |}.

(** ** Default selections (lines 59-66, 74-81, 95-98) *)

(** [df['date'].max()]: nothing (NaN) on a frame without rows. *)
Definition max_date (df : list Row) : option Calendar.date :=
  match df with
  | [] => None
  | r :: t => Some (fold_left Z.max (map date t) (date r))
  end.

(** [df['date'].min()] *)
Definition min_date (df : list Row) : option Calendar.date :=
  match df with
  | [] => None
  | r :: t => Some (fold_left Z.min (map date t) (date r))
  end.

(** The month the select box shows first: its option at position 0. *)
Definition default_month (df : list Row) : option string :=
  selectbox (months df) 0.

(** ** Top crime label (line 149) *)

(** [s if len(s) < 15 else s[:12] + "..."] *)
Definition top_crime_label (most_common : string) : string :=
  if (String.length most_common <? 15)%nat then most_common
  else substring 0 12 most_common ++ "...".

(** ** Counting on integer columns (lines 170, 201, 398) *)

Section CountingBy.
Context {K : Type} (eqb : K -> K -> bool).

(** The counting loop of [bump] and [tally], for any key type. *)
Fixpoint bump_by (k : K) (table : list (K * Z)) : list (K * Z) :=
  match table with
  | [] => [(k, 1)]
  | (k', n) :: t =>
      if eqb k k' then (k', n + 1) :: t else (k', n) :: bump_by k t
  end.

Definition tally_by (s : list K) : list (K * Z) :=
  fold_left (fun table k => bump_by k table) s [].
(** How often [v] occurs in a column. *)
Definition count_by (v : K) (s : list K) : Z := len (filter (eqb v) s).

(** The count a table records for [k], 0 when [k] has no entry. *)
Fixpoint recorded_by (k : K) (table : list (K * Z)) : Z :=
  match table with
  | [] => 0
  | (k', n) :: t => if eqb k k' then n else recorded_by k t
  end.
End CountingBy.

(** Ascending order on integer keys. *)
Definition int_key_leb (x y : Z * Z) : bool := fst x <=? fst y.

(** [df.groupby(col).size().reset_index(name='count')] on an integer or
    date column *)
Definition groupby_size_int (s : list Z) : list (Z * Z) :=
  sort_by int_key_leb (tally_by Z.eqb s).

(** [f"{x:02d}"]: the decimal digits, with a zero in front of a single
    digit. *)
Definition format_02d (x : Z) : string :=
  let digits := DecimalString.NilZero.string_of_int (Z.to_int x) in
  if (String.length digits <? 2)%nat then "0" ++ digits else digits.

(** [lambda x: f"{x:02d}:00"] *)
Definition hour_label (x : Z) : string := format_02d x ++ ":00".

(** One bucket of the hourly charts. *)
Record HourBucket : Type := mkHourBucket {
  bucket_hour : Z;
  bucket_count : Z;
  bucket_label : string;
  bucket_period : string
}.

(** Lines 170-171. *)
Definition hourly_data (filtered : list Row) : list (Z * Z * string) :=
  map (fun kc => (fst kc, snd kc, hour_label (fst kc)))
    (groupby_size_int (map hour filtered)).

(** Lines 398-412. *)
Definition hourly_pattern (filtered : list Row) : list HourBucket :=
  map (fun kc =>
         {| bucket_hour := fst kc;
            bucket_count := snd kc;
            bucket_label := hour_label (fst kc);
            bucket_period := categorize_hour (fst kc) |})
    (groupby_size_int (map hour filtered)).

(** Line 201. *)
Definition daily_data (filtered : list Row) : list (Calendar.date * Z) :=
  groupby_size_int (map date filtered).

(** ** Top lists (lines 267, 297, 340-352) *)

(** [value_counts().head(10)] on the crime types *)
Definition crime_types (filtered : list Row) : list (string * Z) :=
  firstn 10 (value_counts (map PRIMARY_DESCRIPTION filtered)).

(** [value_counts().head(10)] on the location types *)
Definition location_types (filtered : list Row) : list (string * Z) :=
  firstn 10 (value_counts (map LOCATION_DESCRIPTION filtered)).

(** [value_counts().head(8).index] *)
Definition top_crimes (filtered : list Row) : list string :=
  map fst (firstn 8 (value_counts (map PRIMARY_DESCRIPTION filtered))).

(** One entry of [arrest_analysis]. *)
Record ArrestEntry : Type := mkArrestEntry {
  entry_crime : string;
  entry_total : Z;
  entry_arrested : Z;
  entry_rate : Q
}.

(** The body of the loop of lines 343-352, for one crime type. *)
Definition arrest_entry (filtered : list Row) (crime : string)
  : result ArrestEntry :=
  let crime_df :=
    filter (fun r => cell_eqb (PRIMARY_DESCRIPTION r) crime) filtered in
  let total := len crime_df in
  let arrested := len (filter (fun r => cell_eqb (ARREST r) "Y") crime_df) in
  r <- rate arrested total ;;
  Ok {| entry_crime := crime; entry_total := total;
        entry_arrested := arrested; entry_rate := r |}.

Fixpoint collect {A B : Type} (f : A -> result B) (l : list A)
  : result (list B) :=
  match l with
  | [] => Ok []
  | a :: l' => b <- f a ;; bs <- collect f l' ;; Ok (b :: bs)
  end.

(** Lines 340-352. *)
Definition arrest_analysis (filtered : list Row) : result (list ArrestEntry) :=
  collect (arrest_entry filtered) (top_crimes filtered).

(** ** Data summary (lines 448-464) *)

(** [part / len(df) * 100], without a guard. *)
Definition overall_rate (part total : Z) : result Q :=
  q <- truediv part total ;; Ok (q * 100)%Q.

(** Line 460. *)
Definition overall_arrest_rate (df : list Row) : result Q :=
  overall_rate (arrests_made df) (len df).

(** Line 461. *)
Definition overall_domestic_rate (df : list Row) : result Q :=
  overall_rate (domestic_crimes df) (len df).


(** The sum of a column of counts. *)
Definition total_count {K : Type} (series : list (K * Z)) : Z :=
  fold_right Z.add 0 (map snd series).

(** The characters of a name that are not whitespace, in order. *)
Fixpoint visible (s : string) : string :=
  match s with
  | EmptyString => EmptyString
  | String c t => if isspace c then visible t else String c (visible t)
  end.

(** The calendar fields of a timestamp lie in the ranges of Python's
    [datetime]: years 1 to 9999 (from 0 here), months 1 to 12, hours 0 to
    23. *)
Definition valid_stamp (t : Timestamp) : Prop :=
  0 <= ts_year t <= 9999 /\ 1 <= ts_month t <= 12 /\ 0 <= ts_hour t <= 23.

(** What lines 34-37 establish for a row: the four derived cells are the
    ones its timestamp gives. *)
Definition derived_ok (r : Row) : Prop :=
  date r = dt_date (DATE_OF_OCCURRENCE r) /\
  hour r = dt_hour (DATE_OF_OCCURRENCE r) /\
  day_of_week r = dt_day_name (DATE_OF_OCCURRENCE r) /\
  month r = dt_month (DATE_OF_OCCURRENCE r).

(** * Properties *)

(** ** The result monad *)

Lemma raises_Raise {A : Type} (e : exn) : raises (@Raise A e).
Proof. exists e. reflexivity. Qed.

Lemma not_raises_Ok {A : Type} (a : A) : ~ raises (Ok a).
Proof. intros [e He]. discriminate He. Qed.

Lemma len_nonneg {A : Type} (l : list A) : 0 <= len l.
Proof. unfold len. lia. Qed.

Lemma len_nil_iff {A : Type} (l : list A) : len l = 0 <-> l = [].
Proof.
  unfold len. destruct l as [|a l]; simpl; split; intro H;
    try reflexivity; try discriminate; lia.
Qed.

Lemma len_cons {A : Type} (a : A) (l : list A) : len (a :: l) = len l + 1.
Proof. unfold len. simpl List.length. lia. Qed.

Lemma len_filter_le {A : Type} (f : A -> bool) (l : list A) :
  len (filter f l) <= len l.
Proof.
  induction l as [|a l IH]; simpl.
  - lia.
  - destruct (f a); rewrite ?len_cons; lia.
Qed.

(** ** Weekly period *)

Lemma weekday_range (d : Calendar.date) : 0 <= weekday d <= 6.
Proof.
  unfold weekday. pose proof (Z.mod_pos_bound (d + 6) 7). lia.
Qed.

Lemma weekday_of_monday (d : Calendar.date) : weekday (d - weekday d) = 0.
Proof.
  unfold weekday. Z.to_euclidean_division_equations. lia.
Qed.

Lemma add_days_in_range (d : Calendar.date) (n : Z) :
  1 <= d + n <= MAXORDINAL -> add_days d n = Ok (d + n).
Proof.
  intros [Hlo Hhi]. unfold add_days.
  apply Z.leb_le in Hlo. apply Z.leb_le in Hhi.
  cbv zeta. rewrite Hlo, Hhi. reflexivity.
Qed.

Lemma week_start_ok (d : Calendar.date) :
  1 <= d <= MAXORDINAL -> week_start d = Ok (d - weekday d).
Proof.
  intros [Hlo Hhi]. unfold week_start, sub_days.
  replace (d - weekday d) with (d + - weekday d) by lia.
  apply add_days_in_range.
  pose proof (weekday_range d) as Hw.
  assert (Hm : 1 <= d - weekday d).
  { unfold weekday in *. Z.to_euclidean_division_equations. lia. }
  lia.
Qed.

Lemma filter_range_In (df : list Row) (first last : Calendar.date) (r : Row) :
  In r (filter_range df first last) <->
  In r df /\ first <= date r <= last.
Proof.
  unfold filter_range. rewrite filter_In, andb_true_iff.
  rewrite Z.geb_le, Z.leb_le. tauto.
Qed.

(** C2.  For an anchor date that a loaded dataset can offer (between
    0001-01-01 and six days before [date.max]), the weekly branch computes
    the week start as the anchor minus its weekday number (days since
    Monday), which is a Monday on or before the anchor; the week end is six
    days later, so the range has seven days and contains the anchor; the
    filtered rows are exactly the rows dated within that inclusive range.
    An anchor on a Wednesday (weekday 2) resolves to the day two days
    before. *)
Theorem weekly_range_starts_monday
  (anchor : Calendar.date)
  (Hlo : 1 <= anchor) (Hhi : anchor <= MAXORDINAL - 6) :
  exists ws we : Calendar.date,
    week_start anchor = Ok ws /\
    week_end anchor = Ok we /\
    ws = anchor - weekday anchor /\
    0 <= weekday anchor <= 6 /\
    weekday ws = 0 /\
    we = ws + 6 /\
    we - ws + 1 = 7 /\
    ws <= anchor <= we /\
    (weekday anchor = 2 -> ws = anchor - 2 /\ weekday ws = 0) /\
    forall df : list Row,
      filtered_df df (SelectWeek anchor) = Ok (filter_range df ws we) /\
      forall r, In r (filter_range df ws we) <->
                In r df /\ ws <= date r <= ws + 6.
Proof.
  pose proof (weekday_range anchor) as Hw.
  assert (Hws : week_start anchor = Ok (anchor - weekday anchor))
    by (apply week_start_ok; unfold MAXORDINAL in *; lia).
  assert (Hwe : add_days (anchor - weekday anchor) 6
                = Ok (anchor - weekday anchor + 6)).
  { apply add_days_in_range.
    assert (1 <= anchor - weekday anchor).
    { unfold weekday in *. Z.to_euclidean_division_equations. lia. }
    unfold MAXORDINAL in *. lia. }
  exists (anchor - weekday anchor), (anchor - weekday anchor + 6).
  repeat match goal with |- _ /\ _ => split end;
    try lia; try assumption.
  - unfold week_end. rewrite Hws. simpl. exact Hwe.
  - apply weekday_of_monday.
  - intros Hwed. split; [lia | apply weekday_of_monday].
  - intros df. split.
    + simpl. rewrite Hws. simpl. rewrite Hwe. reflexivity.
    + intros r. apply filter_range_In.
Qed.

Lemma weekly_range_starts_monday_witness :
  1 <= ymd2ord 2024 3 13 /\ ymd2ord 2024 3 13 <= MAXORDINAL - 6 /\
  exists ws we : Calendar.date,
    week_start (ymd2ord 2024 3 13) = Ok ws /\
    week_end (ymd2ord 2024 3 13) = Ok we /\
    ws = ymd2ord 2024 3 13 - weekday (ymd2ord 2024 3 13) /\
    0 <= weekday (ymd2ord 2024 3 13) <= 6 /\
    weekday ws = 0 /\
    we = ws + 6 /\
    we - ws + 1 = 7 /\
    ws <= ymd2ord 2024 3 13 <= we /\
    (weekday (ymd2ord 2024 3 13) = 2 ->
     ws = ymd2ord 2024 3 13 - 2 /\ weekday ws = 0) /\
    forall df : list Row,
      filtered_df df (SelectWeek (ymd2ord 2024 3 13))
      = Ok (filter_range df ws we) /\
      forall r, In r (filter_range df ws we) <->
                In r df /\ ws <= date r <= ws + 6.
Proof.
  split; [vm_compute; discriminate |].
  split; [vm_compute; discriminate |].
  apply (weekly_range_starts_monday (ymd2ord 2024 3 13));
    vm_compute; discriminate.
Defined.

(** ** Rates *)

Lemma rate_zero_total (part : Z) : rate part 0 = Ok 0%Q.
Proof. reflexivity. Qed.

Lemma rate_positive_total (part total : Z) :
  0 < total ->
  rate part total = Ok (inject_Z part / inject_Z total * 100)%Q.
Proof.
  intros Ht. unfold rate, truediv.
  assert (H1 : (total >? 0) = true) by (apply Z.gtb_lt; lia).
  assert (H2 : (total =? 0) = false) by (apply Z.eqb_neq; lia).
  rewrite H1, H2. reflexivity.
Qed.

Lemma rate_total (part total : Z) :
  0 <= total -> exists q, rate part total = Ok q.
Proof.
  intros Ht. destruct (Z.eq_dec total 0) as [-> | Hne].
  - exists 0%Q. apply rate_zero_total.
  - eexists. apply rate_positive_total. lia.
Qed.

Lemma quotient_percent_bounds (part total : Z) :
  0 <= part <= total -> 0 < total ->
  (0 <= inject_Z part / inject_Z total * 100 /\
   inject_Z part / inject_Z total * 100 <= 100)%Q.
Proof.
  intros [Hp Hpt] Ht.
  assert (Htq : (0 < inject_Z total)%Q)
    by (change 0%Q with (inject_Z 0); rewrite <- Zlt_Qlt; exact Ht).
  assert (H0 : (0 <= inject_Z part / inject_Z total)%Q).
  { apply Qle_shift_div_l; [exact Htq |].
    rewrite Qmult_0_l. change 0%Q with (inject_Z 0).
    rewrite <- Zle_Qle. exact Hp. }
  assert (H1 : (inject_Z part / inject_Z total <= 1)%Q).
  { apply Qle_shift_div_r; [exact Htq |].
    rewrite Qmult_1_l. rewrite <- Zle_Qle. exact Hpt. }
  split.
  - apply Qmult_le_0_compat; [exact H0 | discriminate].
  - apply Qle_trans with (1 * 100)%Q.
    + apply Qmult_le_compat_r; [exact H1 | discriminate].
    + discriminate.
Qed.

Lemma rate_bounds (part total : Z) (q : Q) :
  0 <= part <= total -> rate part total = Ok q -> (0 <= q /\ q <= 100)%Q.
Proof.
  intros Hp Hq. destruct (Z.eq_dec total 0) as [-> | Hne].
  - rewrite rate_zero_total in Hq. injection Hq as <-.
    split; discriminate.
  - rewrite rate_positive_total in Hq by lia. injection Hq as <-.
    apply quotient_percent_bounds; lia.
Qed.

Lemma arrests_le_total (filtered : list Row) :
  0 <= arrests_made filtered <= total_crimes filtered.
Proof.
  unfold arrests_made, total_crimes. split.
  - apply len_nonneg.
  - apply len_filter_le.
Qed.

Lemma domestic_le_total (filtered : list Row) :
  0 <= domestic_crimes filtered <= total_crimes filtered.
Proof.
  unfold domestic_crimes, total_crimes. split.
  - apply len_nonneg.
  - apply len_filter_le.
Qed.

Lemma cell_eqb_true (c : option string) (v : string) :
  cell_eqb c v = true <-> c = Some v.
Proof.
  destruct c as [s|]; simpl.
  - rewrite String.eqb_eq. split; congruence.
  - split; discriminate.
Qed.

Lemma cell_eqb_false (c : option string) (v : string) :
  cell_eqb c v = false <-> c <> Some v.
Proof.
  rewrite <- cell_eqb_true. destruct (cell_eqb c v); split; congruence.
Qed.

(** C1, as stated, fails: for one row with an arrest the page computes the
    arrest rate 100, which is not [arrestCount/totalCount] = 1. *)
Lemma arrest_rate_is_not_the_plain_quotient :
  arrest_rate [arrested_row] = Ok 100%Q /\
  ~ (100 == inject_Z (arrests_made [arrested_row])
            / inject_Z (total_crimes [arrested_row]))%Q.
Proof.
  split.
  - vm_compute. reflexivity.
  - vm_compute. discriminate.
Qed.

(** C1, amended.  For every filtered row set both rates are computed
    without an exception; they are the percentages
    [arrestCount / totalCount * 100] and [domesticCount / totalCount * 100]
    when the period has rows, and exactly 0 when it has none. *)
Theorem rates_are_zero_guarded_percentages (filtered : list Row) :
  exists ar dr : Q,
    arrest_rate filtered = Ok ar /\
    domestic_rate filtered = Ok dr /\
    (total_crimes filtered = 0 -> ar = 0%Q /\ dr = 0%Q) /\
    (total_crimes filtered <> 0 ->
     ar = (inject_Z (arrests_made filtered)
           / inject_Z (total_crimes filtered) * 100)%Q /\
     dr = (inject_Z (domestic_crimes filtered)
           / inject_Z (total_crimes filtered) * 100)%Q).
Proof.
  unfold arrest_rate, domestic_rate.
  pose proof (len_nonneg filtered) as Hn. fold (total_crimes filtered) in Hn.
  destruct (Z.eq_dec (total_crimes filtered) 0) as [H0 | Hne].
  - rewrite H0. exists 0%Q, 0%Q.
    repeat split; try reflexivity; intros; congruence.
  - rewrite !rate_positive_total by lia.
    eexists; eexists.
    split; [reflexivity |]. split; [reflexivity |].
    split; [intros; congruence | intros _; split; reflexivity].
Qed.

(** The daily scenario: one theft on 2024-03-15 at 08:00 without arrest,
    viewed on that day. *)
Example daily_view_of_one_theft :
  let df := [derive (theft, mkTimestamp 2024 3 15 8 0 0)] in
  let filtered := filter_day df (ymd2ord 2024 3 15) in
  filtered_df df (SelectDay (ymd2ord 2024 3 15)) = Ok filtered /\
  total_crimes filtered = 1 /\
  arrests_made filtered = 0 /\
  arrest_rate filtered = Ok 0%Q /\
  most_common_crime filtered = Ok "THEFT".
Proof. repeat split. Qed.

(** ** Flag counts *)

Lemma arrests_made_cons (r : Row) (filtered : list Row) :
  arrests_made (r :: filtered)
  = arrests_made filtered + (if cell_eqb (ARREST r) "Y" then 1 else 0).
Proof.
  unfold arrests_made. simpl.
  destruct (cell_eqb (ARREST r) "Y"); rewrite ?len_cons; lia.
Qed.

Lemma domestic_crimes_cons (r : Row) (filtered : list Row) :
  domestic_crimes (r :: filtered)
  = domestic_crimes filtered + (if cell_eqb (DOMESTIC r) "Y" then 1 else 0).
Proof.
  unfold domestic_crimes. simpl.
  destruct (cell_eqb (DOMESTIC r) "Y"); rewrite ?len_cons; lia.
Qed.

(** C10.  A row adds one to the arrest count (to the domestic count) exactly
    when its ARREST (DOMESTIC) cell is the string ["Y"]; any other cell, such
    as ["y"], ["true"] or a missing value, adds nothing.  Hence both counts
    lie between 0 and the total, and both rates are computed and lie between
    0 and 100. *)
Theorem flags_count_only_exact_Y (filtered : list Row) :
  arrests_made [] = 0 /\ domestic_crimes [] = 0 /\
  (forall r,
     (ARREST r = Some "Y" ->
      arrests_made (r :: filtered) = arrests_made filtered + 1) /\
     (ARREST r <> Some "Y" ->
      arrests_made (r :: filtered) = arrests_made filtered) /\
     (DOMESTIC r = Some "Y" ->
      domestic_crimes (r :: filtered) = domestic_crimes filtered + 1) /\
     (DOMESTIC r <> Some "Y" ->
      domestic_crimes (r :: filtered) = domestic_crimes filtered)) /\
  cell_eqb (Some "y") "Y" = false /\
  cell_eqb (Some "true") "Y" = false /\
  cell_eqb None "Y" = false /\
  0 <= arrests_made filtered <= total_crimes filtered /\
  0 <= domestic_crimes filtered <= total_crimes filtered /\
  exists ar dr : Q,
    arrest_rate filtered = Ok ar /\ domestic_rate filtered = Ok dr /\
    (0 <= ar /\ ar <= 100)%Q /\ (0 <= dr /\ dr <= 100)%Q.
Proof.
  split; [reflexivity |]. split; [reflexivity |].
  split.
  { intros r. rewrite arrests_made_cons, domestic_crimes_cons.
    repeat split; intros H.
    - apply cell_eqb_true in H. rewrite H. reflexivity.
    - apply cell_eqb_false in H. rewrite H. lia.
    - apply cell_eqb_true in H. rewrite H. reflexivity.
    - apply cell_eqb_false in H. rewrite H. lia. }
  split; [reflexivity |]. split; [reflexivity |]. split; [reflexivity |].
  pose proof (arrests_le_total filtered) as Ha.
  pose proof (domestic_le_total filtered) as Hd.
  split; [exact Ha |]. split; [exact Hd |].
  assert (Ht : 0 <= total_crimes filtered) by lia.
  destruct (rate_total (arrests_made filtered) _ Ht) as [ar Har].
  destruct (rate_total (domestic_crimes filtered) _ Ht) as [dr Hdr].
  exists ar, dr. unfold arrest_rate, domestic_rate.
  split; [exact Har |]. split; [exact Hdr |].
  split.
  - exact (rate_bounds _ _ _ Ha Har).
  - exact (rate_bounds _ _ _ Hd Hdr).
Qed.

(** ** Column names *)

Lemma lstrip_head (s : string) :
  lstrip s = EmptyString \/
  exists c t, lstrip s = String c t /\ isspace c = false.
Proof.
  induction s as [|c t IH]; simpl.
  - left. reflexivity.
  - destruct (isspace c) eqn:Hc.
    + exact IH.
    + right. exists c, t. split; [reflexivity | exact Hc].
Qed.

Lemma rstrip_cons_nonspace (c : ascii) (t : string) :
  isspace c = false -> rstrip (String c t) = String c (rstrip t).
Proof.
  intros Hc. simpl. rewrite Hc. destruct (rstrip t); reflexivity.
Qed.

Lemma rstrip_ends_clean (s : string) : ends_clean (rstrip s) = true.
Proof.
  induction s as [|c t IH]; simpl.
  - reflexivity.
  - destruct (rstrip t) as [|c' t'] eqn:Ht.
    + destruct (isspace c) eqn:Hc; simpl; [reflexivity | now rewrite Hc].
    + simpl. simpl in IH. exact IH.
Qed.

Lemma collapse_from_normalized (s : string) :
  forall flag : bool,
    ends_clean s = true ->
    (s = EmptyString -> flag = false) ->
    normalized_from flag (collapse_from flag s) = true.
Proof.
  induction s as [|c t IH]; intros flag Hend Hflag.
  - simpl. rewrite Hflag by reflexivity. reflexivity.
  - assert (Ht : ends_clean t = true).
    { destruct t; [reflexivity | exact Hend]. }
    simpl. destruct (isspace c) eqn:Hc.
    + assert (Hne : t = EmptyString -> true = false).
      { intros ->. simpl in Hend. rewrite Hc in Hend. discriminate. }
      destruct flag.
      * apply IH; assumption.
      * simpl. apply IH; assumption.
    + simpl. rewrite Hc. apply IH; [exact Ht | reflexivity].
Qed.

Lemma clean_column_normalized (name : string) :
  normalized (clean_column name) = true.
Proof.
  unfold clean_column, strip, collapse.
  pose proof (rstrip_ends_clean (lstrip name)) as Hend.
  destruct (lstrip_head name) as [Hl | (c & t & Hl & Hc)];
    rewrite Hl in *.
  - reflexivity.
  - rewrite rstrip_cons_nonspace in * by exact Hc.
    simpl. rewrite Hc. simpl. rewrite Hc.
    apply collapse_from_normalized; [| reflexivity].
    destruct (rstrip t); [reflexivity | exact Hend].
Qed.

Lemma normalized_from_collapse (s : string) :
  forall after flag : bool,
    normalized_from after s = true ->
    (flag = true -> after = true) ->
    collapse_from flag s = s.
Proof.
  induction s as [|c t IH]; intros after flag Hn Hflag.
  - reflexivity.
  - simpl in *. destruct (isspace c) eqn:Hc.
    + apply andb_true_iff in Hn. destruct Hn as [Hn Ht].
      apply andb_true_iff in Hn. destruct Hn as [Ha Hsp].
      apply Ascii.eqb_eq in Hsp. subst c.
      destruct flag.
      * rewrite Hflag in Ha by reflexivity. discriminate.
      * f_equal. apply (IH true true); [exact Ht | reflexivity].
    + f_equal. apply (IH false false); [exact Hn | discriminate].
Qed.

Lemma normalized_from_rstrip (s : string) :
  forall after : bool, normalized_from after s = true -> rstrip s = s.
Proof.
  induction s as [|c t IH]; intros after Hn.
  - reflexivity.
  - simpl in *. destruct (isspace c) eqn:Hc.
    + apply andb_true_iff in Hn. destruct Hn as [_ Ht].
      rewrite (IH true Ht). destruct t; [discriminate Ht | reflexivity].
    + rewrite (IH false Hn). destruct t; reflexivity.
Qed.

Lemma normalized_lstrip (s : string) :
  normalized s = true -> lstrip s = s.
Proof.
  destruct s as [|c t]; [reflexivity |].
  simpl. destruct (isspace c); [discriminate | reflexivity].
Qed.

Lemma normalized_fixed (name : string) :
  normalized name = true -> clean_column name = name.
Proof.
  intros Hn. unfold clean_column, strip, collapse.
  rewrite (normalized_lstrip _ Hn).
  destruct name as [|c t]; [reflexivity |].
  rewrite (normalized_from_rstrip _ true Hn).
  apply (normalized_from_collapse _ true false); [exact Hn | discriminate].
Qed.

Lemma clean_column_idempotent (name : string) :
  clean_column (clean_column name) = clean_column name.
Proof. apply normalized_fixed, clean_column_normalized. Qed.

(** ** Loading *)

Lemma setitem_extends (cols : list string) (key : string) :
  exists extra, setitem cols key = (cols ++ extra)%list /\
                (forall c, In c extra -> c = key).
Proof.
  unfold setitem. destruct (existsb (String.eqb key) cols).
  - exists []. rewrite app_nil_r. split; [reflexivity | contradiction].
  - exists [key]. split; [reflexivity |].
    intros c [<- | []]. reflexivity.
Qed.

Lemma fold_setitem_extends (keys cols : list string) :
  exists extra, fold_left setitem keys cols = (cols ++ extra)%list /\
                (forall c, In c extra -> In c keys).
Proof.
  revert cols. induction keys as [|k keys IH]; intros cols; simpl.
  - exists []. rewrite app_nil_r. split; [reflexivity | contradiction].
  - destruct (setitem_extends cols k) as (e1 & -> & H1).
    destruct (IH (cols ++ e1)%list) as (e2 & -> & H2).
    exists (e1 ++ e2)%list. rewrite app_assoc. split; [reflexivity |].
    intros c Hc. apply in_app_or in Hc. destruct Hc as [Hc | Hc].
    + left. symmetry. apply H1, Hc.
    + right. apply H2, Hc.
Qed.

Lemma count_name_app (key : string) (l1 l2 : list string) :
  count_name key (l1 ++ l2)%list = (count_name key l1 + count_name key l2)%nat.
Proof.
  unfold count_name. rewrite filter_app, length_app. reflexivity.
Qed.

Lemma getitem_series_unique (cols : list string) (key : string) :
  getitem_series cols key = Ok tt <-> count_name key cols = 1%nat.
Proof.
  unfold getitem_series.
  destruct (count_name key cols) as [|[|n]]; split; intros H;
    try reflexivity; try discriminate.
Qed.

Lemma getitem_series_raises (cols : list string) (key : string) :
  raises (getitem_series cols key) <-> count_name key cols <> 1%nat.
Proof.
  unfold getitem_series.
  destruct (count_name key cols) as [|[|n]]; split; intros H;
    try (apply raises_Raise); try discriminate; try lia.
  - destruct H as [e He]. discriminate He.
Qed.

Lemma dropna_date_length (rs : list RawRow) :
  forall ps : list (option Timestamp),
    List.length ps = List.length rs ->
    List.length (dropna_date (combine rs ps))
    = List.length (filter notna ps).
Proof.
  induction rs as [|r rs IH]; intros [|p ps] Hlen; simpl in *;
    try reflexivity; try discriminate.
  injection Hlen as Hlen. destruct p; simpl; rewrite (IH ps Hlen); reflexivity.
Qed.

Lemma dropna_date_In (l : list (RawRow * option Timestamp))
  (r : RawRow) (t : Timestamp) :
  In (r, t) (dropna_date l) <-> In (r, Some t) l.
Proof.
  induction l as [|[r' [t'|]] l IH]; simpl.
  - tauto.
  - rewrite IH. split; intros [H | H]; auto; left; congruence.
  - rewrite IH. split; [auto | intros [H | H]; [discriminate | exact H]].
Qed.

Lemma filter_length_all {A : Type} (f : A -> bool) (l : list A) :
  List.length (filter f l) = List.length l <-> Forall (fun a => f a = true) l.
Proof.
  induction l as [|a l IH]; simpl.
  - split; [constructor | reflexivity].
  - pose proof (filter_length_le f l) as Hle.
    destruct (f a) eqn:Hfa; simpl; split; intros H.
    + constructor; [exact Hfa |]. apply IH. lia.
    + inversion H; subst. f_equal. apply IH. assumption.
    + lia.
    + inversion H; subst. congruence.
Qed.

Section Loader.
Variable to_datetime : parser.

(** The rows that survive line 32, as the embedding computes them. *)
Lemma load_data_unique_date (raw : RawFrame) :
  count_name date_col (map clean_column (raw_columns raw)) = 1%nat ->
  load_data to_datetime (Ok raw)
  = Ok {| columns :=
            fold_left setitem ["date"; "hour"; "day_of_week"; "month"]
              (map clean_column (raw_columns raw));
          rows :=
            map derive
              (dropna_date
                 (combine (raw_rows raw)
                    (to_datetime
                       (map raw_DATE_OF_OCCURRENCE (raw_rows raw))))) |}.
Proof.
  intros H. apply getitem_series_unique in H.
  unfold load_data. simpl. rewrite H. reflexivity.
Qed.

Lemma load_data_raises_iff (read_csv : result RawFrame) :
  raises (load_data to_datetime read_csv) <->
  raises read_csv \/
  exists raw, read_csv = Ok raw /\
              count_name date_col (map clean_column (raw_columns raw))
              <> 1%nat.
Proof.
  destruct read_csv as [raw | e].
  - split.
    + intros Hr. right. exists raw. split; [reflexivity |].
      intros Hone. rewrite (load_data_unique_date raw Hone) in Hr.
      exact (not_raises_Ok _ Hr).
    + intros [Hr | (raw' & Heq & Hne)].
      * exfalso. exact (not_raises_Ok _ Hr).
      * injection Heq as <-. apply getitem_series_raises in Hne.
        destruct Hne as [e He]. exists e.
        unfold load_data. simpl. rewrite He. reflexivity.
  - split; intros _; [left |]; exists e; reflexivity.
Qed.
End Loader.

Lemma table_parser_length (table : list (string * Timestamp))
  (col : list (option string)) :
  List.length (table_parser table col) = List.length col.
Proof. unfold table_parser. apply length_map. Qed.

Lemma notna_all_iff {A : Type} (l : list (option A)) :
  Forall (fun c => notna c = true) l <-> Forall (fun c => c <> None) l.
Proof.
  split; intros H; induction H as [|c l Hc _ IH]; constructor; auto.
  - destruct c; [discriminate | discriminate Hc].
  - destruct c; [reflexivity | congruence].
Qed.

(** C5.  With a parser that returns one entry per cell and a frame whose
    cleaned header has the occurrence column once, [load_data] returns a
    frame whose rows are exactly the raw rows with a parsed timestamp, each
    with its derived fields; rows whose timestamp did not parse are dropped.
    So the loaded row count is the number of parsed timestamps, it is at
    most the raw row count, and the two are equal if and only if no
    timestamp failed to parse. *)
Theorem load_keeps_exactly_the_parsed_rows
  (to_datetime : parser) (raw : RawFrame)
  (Hparser : forall col, List.length (to_datetime col) = List.length col)
  (Hdate : count_name date_col (map clean_column (raw_columns raw)) = 1%nat) :
  let parsed := to_datetime (map raw_DATE_OF_OCCURRENCE (raw_rows raw)) in
  exists df,
    load_data to_datetime (Ok raw) = Ok df /\
    (forall r, In r (rows df) <->
               exists raw_r t,
                 In (raw_r, Some t) (combine (raw_rows raw) parsed) /\
                 r = derive (raw_r, t)) /\
    len (rows df) = len (filter notna parsed) /\
    len (rows df) <= len (raw_rows raw) /\
    (len (rows df) = len (raw_rows raw) <->
     Forall (fun cell => cell <> None) parsed).
Proof.
  intros parsed.
  assert (Hlen : List.length parsed = List.length (raw_rows raw)).
  { unfold parsed. rewrite Hparser. apply length_map. }
  eexists. split; [apply load_data_unique_date; exact Hdate |].
  simpl. fold parsed.
  assert (Hcount : len (map derive (dropna_date (combine (raw_rows raw) parsed)))
                   = len (filter notna parsed)).
  { unfold len. rewrite length_map, dropna_date_length by exact Hlen.
    reflexivity. }
  split; [| split; [exact Hcount | split]].
  - intros r. rewrite in_map_iff. split.
    + intros ([raw_r t] & Hr & Hin). exists raw_r, t.
      split; [apply dropna_date_In; exact Hin | symmetry; exact Hr].
    + intros (raw_r & t & Hin & ->). exists (raw_r, t).
      split; [reflexivity | apply dropna_date_In; exact Hin].
  - rewrite Hcount. unfold len. rewrite <- Hlen.
    pose proof (filter_length_le notna parsed). lia.
  - rewrite Hcount. unfold len. rewrite <- Hlen, <- notna_all_iff.
    rewrite <- filter_length_all. lia.
Qed.

Lemma load_keeps_exactly_the_parsed_rows_witness :
  let parsed :=
    sample_parser (map raw_DATE_OF_OCCURRENCE (raw_rows sample_csv)) in
  exists df,
    load_data sample_parser (Ok sample_csv) = Ok df /\
    (forall r, In r (rows df) <->
               exists raw_r t,
                 In (raw_r, Some t) (combine (raw_rows sample_csv) parsed) /\
                 r = derive (raw_r, t)) /\
    len (rows df) = len (filter notna parsed) /\
    len (rows df) <= len (raw_rows sample_csv) /\
    (len (rows df) = len (raw_rows sample_csv) <->
     Forall (fun cell => cell <> None) parsed).
Proof.
  apply (load_keeps_exactly_the_parsed_rows sample_parser sample_csv).
  - intros col. apply table_parser_length.
  - vm_compute. reflexivity.
Defined.

(** C8, as stated, fails: in a readable file with the occurrence column
    where no timestamp parses, zero rows survive, and [load_data] still
    returns a frame (an empty one) instead of raising. *)
Lemma load_with_no_parsed_row_returns_empty_frame :
  Forall (fun cell => cell = None)
    (sample_parser (map raw_DATE_OF_OCCURRENCE (raw_rows undated_csv))) /\
  (exists df,
     load_data sample_parser (Ok undated_csv) = Ok df /\ rows df = []) /\
  ~ raises (load_data sample_parser (Ok undated_csv)).
Proof.
  split; [| split].
  - vm_compute. repeat constructor.
  - eexists. split; [vm_compute; reflexivity | reflexivity].
  - intros [e He]. vm_compute in He. discriminate He.
Qed.

(** C8, amended.  [load_data] raises exactly when reading the file raised
    (missing, unreadable or not parsable as a table) or the cleaned header
    does not have the occurrence column exactly once; an error of the read
    is passed on as it is.  In every other case a frame is returned, also
    when no timestamp parses: that frame has no rows. *)
Theorem load_fails_exactly_on_read_error_or_date_column
  (to_datetime : parser) (read_csv : result RawFrame) :
  (raises (load_data to_datetime read_csv) <->
   raises read_csv \/
   exists raw, read_csv = Ok raw /\
               count_name date_col (map clean_column (raw_columns raw))
               <> 1%nat) /\
  (forall e, read_csv = Raise e ->
             load_data to_datetime read_csv = Raise e) /\
  (forall raw,
     read_csv = Ok raw ->
     count_name date_col (map clean_column (raw_columns raw)) = 1%nat ->
     exists df,
       load_data to_datetime read_csv = Ok df /\
       (Forall (fun cell => cell = None)
          (to_datetime (map raw_DATE_OF_OCCURRENCE (raw_rows raw))) ->
        rows df = [])).
Proof.
  split; [apply load_data_raises_iff | split].
  - intros e ->. reflexivity.
  - intros raw -> Hdate. eexists.
    split; [apply load_data_unique_date; exact Hdate |].
    simpl. generalize (to_datetime (map raw_DATE_OF_OCCURRENCE (raw_rows raw))).
    generalize (raw_rows raw).
    intros rs ps Hnone. revert rs.
    induction Hnone as [|p ps Hp _ IH]; intros [|r rs]; try reflexivity.
    subst p. simpl. apply IH.
Qed.

Lemma firstn_length_app {A : Type} (l extra : list A) :
  firstn (List.length l) (l ++ extra) = l.
Proof.
  rewrite firstn_app, Nat.sub_diag, firstn_all. simpl. apply app_nil_r.
Qed.

(** C9, as stated, fails in its second half: two headers that become the
    same name after cleaning are neither rejected nor flagged; the load
    succeeds and the frame carries the name twice. *)
Lemma twin_headers_are_loaded_not_rejected :
  ~ NoDup (map clean_column (raw_columns twin_header_csv)) /\
  (exists df,
     load_data sample_parser (Ok twin_header_csv) = Ok df /\
     count_name "ARREST" (columns df) = 2%nat) /\
  ~ raises (load_data sample_parser (Ok twin_header_csv)).
Proof.
  split; [| split].
  - intros H. vm_compute in H.
    repeat match goal with
           | H : NoDup (_ :: _) |- _ => inversion H; clear H; subst
           end.
    match goal with
    | H : ~ In "ARREST" _ |- _ => apply H; simpl; tauto
    end.
  - eexists. split; [vm_compute; reflexivity | reflexivity].
  - intros [e He]. vm_compute in He. discriminate He.
Qed.

(** C9, amended.  When the load succeeds (the cleaned header has the
    occurrence column once), the frame's columns start with the raw headers
    in their order, each one cleaned by trimming whitespace at both ends
    and replacing every inner whitespace run by one space; nothing is
    merged or dropped, so headers that clean to the same name all stay,
    and the load neither rejects nor flags them.  Every column name of the
    loaded frame and every name the page reads is already in cleaned form
    (cleaning it again changes nothing), so no later step cleans again. *)
Theorem column_names_cleaned_once_twins_kept
  (to_datetime : parser) (raw : RawFrame)
  (Hdate : count_name date_col (map clean_column (raw_columns raw)) = 1%nat) :
  exists df,
    load_data to_datetime (Ok raw) = Ok df /\
    firstn (List.length (raw_columns raw)) (columns df)
    = map clean_column (raw_columns raw) /\
    (forall name,
       (count_name name (map clean_column (raw_columns raw))
        <= count_name name (columns df))%nat) /\
    Forall (fun c => normalized c = true /\ clean_column c = c)
      (columns df) /\
    Forall (fun c => clean_column c = c) read_columns /\
    (forall name,
       normalized (clean_column name) = true /\
       clean_column (clean_column name) = clean_column name).
Proof.
  destruct (fold_setitem_extends ["date"; "hour"; "day_of_week"; "month"]
              (map clean_column (raw_columns raw)))
    as (extra & Hcols & Hextra).
  rewrite (load_data_unique_date to_datetime raw Hdate), Hcols.
  eexists. split; [reflexivity |].
  cbn [columns].
  split; [| split; [| split; [| split]]].
  - rewrite <- (length_map clean_column). apply firstn_length_app.
  - intros name. rewrite count_name_app. lia.
  - apply Forall_forall. intros c Hc.
    assert (Hn : normalized c = true).
    { apply in_app_or in Hc. destruct Hc as [Hc | Hc].
      - apply in_map_iff in Hc. destruct Hc as (h & <- & _).
        apply clean_column_normalized.
      - apply Hextra in Hc. simpl in Hc.
        destruct Hc as [<- | [<- | [<- | [<- | []]]]]; reflexivity. }
    split; [exact Hn | apply normalized_fixed, Hn].
  - repeat constructor.
  - intros name.
    split; [apply clean_column_normalized | apply clean_column_idempotent].
Qed.

Lemma column_names_cleaned_once_twins_kept_witness :
  count_name date_col (map clean_column (raw_columns twin_header_csv))
  = 1%nat /\
  exists df,
    load_data sample_parser (Ok twin_header_csv) = Ok df /\
    firstn (List.length (raw_columns twin_header_csv)) (columns df)
    = map clean_column (raw_columns twin_header_csv) /\
    (forall name,
       (count_name name (map clean_column (raw_columns twin_header_csv))
        <= count_name name (columns df))%nat) /\
    Forall (fun c => normalized c = true /\ clean_column c = c)
      (columns df) /\
    Forall (fun c => clean_column c = c) read_columns /\
    (forall name,
       normalized (clean_column name) = true /\
       clean_column (clean_column name) = clean_column name).
Proof.
  split; [vm_compute; reflexivity |].
  apply (column_names_cleaned_once_twins_kept sample_parser twin_header_csv).
  vm_compute. reflexivity.
Defined.

(** ** Sorting *)

Section StableSortFacts.
Context {A : Type} (leb : A -> A -> bool).

Lemma insert_by_perm (x : A) (l : list A) :
  Permutation (insert_by leb x l) (x :: l).
Proof.
  induction l as [|y l IH]; simpl.
  - apply Permutation_refl.
  - destruct (leb x y).
    + apply Permutation_refl.
    + apply perm_trans with (y :: x :: l).
      * apply perm_skip, IH.
      * apply perm_swap.
Qed.

Lemma sort_by_perm (l : list A) : Permutation (sort_by leb l) l.
Proof.
  induction l as [|x l IH]; simpl.
  - apply perm_nil.
  - apply perm_trans with (x :: sort_by leb l).
    + apply insert_by_perm.
    + apply perm_skip, IH.
Qed.

Lemma sort_by_In (x : A) (l : list A) : In x (sort_by leb l) <-> In x l.
Proof.
  split; apply Permutation_in.
  - apply sort_by_perm.
  - apply Permutation_sym, sort_by_perm.
Qed.

Hypothesis leb_total : forall x y, leb x y = false -> leb y x = true.
Hypothesis leb_trans :
  forall x y z, leb x y = true -> leb y z = true -> leb x z = true.

Lemma insert_by_sorted (x : A) (l : list A) :
  StronglySorted (fun a b => leb a b = true) l ->
  StronglySorted (fun a b => leb a b = true) (insert_by leb x l).
Proof.
  induction 1 as [|y l Hs IH Hy]; simpl.
  - repeat constructor.
  - destruct (leb x y) eqn:Hxy.
    + constructor; [constructor; assumption |].
      constructor; [exact Hxy |].
      rewrite Forall_forall in *. intros z Hz.
      apply leb_trans with y; [exact Hxy | apply Hy, Hz].
    + constructor; [exact IH |].
      rewrite Forall_forall in *. intros z Hz.
      apply (Permutation_in _ (insert_by_perm x l)) in Hz.
      destruct Hz as [<- | Hz]; [apply leb_total, Hxy | apply Hy, Hz].
Qed.

Lemma sort_by_sorted (l : list A) :
  StronglySorted (fun a b => leb a b = true) (sort_by leb l).
Proof.
  induction l as [|x l IH]; simpl.
  - constructor.
  - apply insert_by_sorted, IH.
Qed.
End StableSortFacts.

Lemma StronglySorted_weaken {A : Type} (R S : A -> A -> Prop) (l : list A) :
  (forall a b, In a l -> In b l -> R a b -> S a b) ->
  StronglySorted R l -> StronglySorted S l.
Proof.
  intros HRS Hs. induction Hs as [|a l Hs IH Ha].
  - constructor.
  - constructor.
    + apply IH. intros x y Hx Hy. apply HRS; right; assumption.
    + rewrite Forall_forall in *. intros x Hx.
      apply HRS; [left; reflexivity | right; exact Hx | apply Ha, Hx].
Qed.

(** Two duplicate-free lists with the same elements, both sorted for an
    order that is antisymmetric on these elements, are the same list. *)
Lemma sorted_lists_equal {A : Type} (R : A -> A -> Prop) (l1 : list A) :
  forall l2 : list A,
    StronglySorted R l1 -> StronglySorted R l2 ->
    NoDup l1 -> NoDup l2 ->
    (forall x, In x l1 <-> In x l2) ->
    (forall x y, In x l1 -> In y l1 -> R x y -> R y x -> x = y) ->
    l1 = l2.
Proof.
  induction l1 as [|a l1 IH]; intros l2 Hs1 Hs2 Hn1 Hn2 Hsame Hanti.
  - destruct l2 as [|b l2]; [reflexivity |].
    exfalso. apply (Hsame b). left. reflexivity.
  - destruct l2 as [|b l2].
    { exfalso. apply (Hsame a). left. reflexivity. }
    apply StronglySorted_inv in Hs1. destruct Hs1 as [Hs1 Ha].
    apply StronglySorted_inv in Hs2. destruct Hs2 as [Hs2 Hb].
    rewrite Forall_forall in Ha, Hb.
    inversion Hn1 as [|? ? Hna Hn1']; subst.
    inversion Hn2 as [|? ? Hnb Hn2']; subst.
    assert (Hab : a = b).
    { assert (Hin_a : In a (b :: l2)) by (apply Hsame; left; reflexivity).
      assert (Hin_b : In b (a :: l1)) by (apply Hsame; left; reflexivity).
      destruct Hin_a as [Hba | Hin_a]; [symmetry; exact Hba |].
      destruct Hin_b as [Hab | Hin_b]; [exact Hab |].
      apply Hanti.
      - left. reflexivity.
      - right. exact Hin_b.
      - apply Ha, Hin_b.
      - apply Hb, Hin_a. }
    subst b. f_equal.
    apply IH; try assumption.
    + intros x. split; intros Hx.
      * destruct (proj1 (Hsame x) (or_intror Hx)) as [<- | H];
          [contradiction | exact H].
      * destruct (proj2 (Hsame x) (or_intror Hx)) as [<- | H];
          [contradiction | exact H].
    + intros x y Hx Hy. apply Hanti; right; assumption.
Qed.

(** ** Distinct values *)

Lemma existsb_eqb_In (x : string) (l : list string) :
  existsb (String.eqb x) l = true <-> In x l.
Proof.
  rewrite existsb_exists. split.
  - intros (y & Hy & Heq). apply String.eqb_eq in Heq. subst. exact Hy.
  - intros H. exists x. split; [exact H | apply String.eqb_refl].
Qed.

Lemma unique_from_In (s : list string) :
  forall seen x, In x (unique_from seen s) <-> In x s /\ ~ In x seen.
Proof.
  induction s as [|y s IH]; intros seen x; simpl.
  - tauto.
  - destruct (existsb (String.eqb y) seen) eqn:Hy.
    + apply existsb_eqb_In in Hy. rewrite IH. split.
      * intros [H1 H2]. tauto.
      * intros [[<- | H1] H2]; [contradiction | tauto].
    + assert (Hny : ~ In y seen).
      { intros H. apply existsb_eqb_In in H. congruence. }
      simpl. rewrite IH. simpl. split.
      * intros [<- | [H1 H2]]; [tauto |]. split; [tauto |].
        intros H. apply H2. right. exact H.
      * intros [[<- | H1] H2]; [tauto |].
        destruct (string_dec y x) as [-> | Hne]; [tauto |].
        right. split; [exact H1 |]. intros [H | H]; tauto.
Qed.

Lemma unique_from_NoDup (s : list string) :
  forall seen, NoDup (unique_from seen s).
Proof.
  induction s as [|y s IH]; intros seen; simpl.
  - constructor.
  - destruct (existsb (String.eqb y) seen).
    + apply IH.
    + constructor; [| apply IH].
      rewrite unique_from_In. simpl. tauto.
Qed.

Lemma unique_In (s : list string) (x : string) : In x (unique s) <-> In x s.
Proof. unfold unique. rewrite unique_from_In. simpl. tauto. Qed.

Lemma unique_NoDup (s : list string) : NoDup (unique s).
Proof. apply unique_from_NoDup. Qed.

(** ** Monthly period *)

Lemma str_ltb_lt (a b : string) :
  str_ltb a b = true <-> String_as_OT.lt a b.
Proof.
  unfold str_ltb. rewrite <- String_as_OT.cmp_lt. unfold String_as_OT.cmp.
  destruct (String.compare a b); split; congruence.
Qed.

Lemma str_ltb_asym (a b : string) : str_ltb a b = true -> str_ltb b a = false.
Proof.
  unfold str_ltb. rewrite (String.compare_antisym a b).
  destruct (String.compare b a); simpl; congruence.
Qed.

Lemma str_geb_trans (a b c : string) :
  str_ltb a b = false -> str_ltb b c = false -> str_ltb a c = false.
Proof.
  intros Hab Hbc. destruct (str_ltb a c) eqn:Hac; [| reflexivity].
  exfalso. unfold str_ltb in Hab.
  destruct (String.compare a b) eqn:Hcmp; try discriminate.
  - apply String.compare_eq_iff in Hcmp. subst b. congruence.
  - assert (Hba : str_ltb b a = true).
    { unfold str_ltb. rewrite (String.compare_antisym b a), Hcmp.
      reflexivity. }
    apply str_ltb_lt in Hba. apply str_ltb_lt in Hac.
    pose proof (String_as_OT.lt_trans _ _ _ Hba Hac) as Hlt.
    apply str_ltb_lt in Hlt. congruence.
Qed.

Lemma months_In (df : list Row) (token : string) :
  In token (months df) <-> In token (map month df).
Proof. unfold months, sorted_reverse. rewrite sort_by_In. apply unique_In. Qed.

Lemma months_NoDup (df : list Row) : NoDup (months df).
Proof.
  unfold months, sorted_reverse.
  apply (Permutation_NoDup (l := unique (map month df))).
  - apply Permutation_sym, sort_by_perm.
  - apply unique_NoDup.
Qed.

Lemma months_descending (df : list Row) :
  StronglySorted (fun a b => str_ltb a b = false) (months df).
Proof.
  unfold months, sorted_reverse.
  eapply StronglySorted_weaken;
    [| apply (sort_by_sorted (fun x y => negb (str_ltb x y)))].
  - intros a b _ _ H. apply negb_true_iff in H. exact H.
  - intros x y H. apply negb_false_iff in H. apply negb_true_iff.
    apply str_ltb_asym, H.
  - intros x y z Hxy Hyz. apply negb_true_iff in Hxy, Hyz.
    apply negb_true_iff. eapply str_geb_trans; eassumption.
Qed.

Lemma filter_month_In (df : list Row) (selected_month : option string)
  (r : Row) :
  In r (filter_month df selected_month) <->
  In r df /\ selected_month = Some (month r).
Proof.
  unfold filter_month. rewrite filter_In, cell_eqb_true. tauto.
Qed.

(** C7, as stated, fails on a run of the page itself.  A file in which no
    timestamp parses loads as a frame without rows; the select box of the
    monthly view then has no option and hands back no month at all, a
    selection that is not present in the dataset; the monthly branch does
    not raise for it, it resolves to the empty period. *)
Lemma monthly_view_without_rows_is_not_an_error :
  exists df,
    load_data sample_parser (Ok undated_csv) = Ok df /\
    rows df = [] /\
    months (rows df) = [] /\
    (forall picked, selectbox (months (rows df)) picked = None) /\
    (forall r, In r (rows df) ->
               selectbox (months (rows df)) 0 <> Some (month r)) /\
    filtered_df (rows df) (SelectMonth (selectbox (months (rows df)) 0))
    = Ok [] /\
    ~ raises
        (filtered_df (rows df)
           (SelectMonth (selectbox (months (rows df)) 0))).
Proof.
  eexists. split; [vm_compute; reflexivity |]. cbn [rows].
  split; [reflexivity |]. split; [reflexivity |].
  split; [intros [|picked]; reflexivity |].
  split; [intros r [] |].
  split; [reflexivity |].
  intros [e He]. discriminate He.
Qed.

(** C7, amended.  The monthly branch never raises: for every dataset and
    every selection it returns exactly the rows whose month equals the
    selection, which is the empty row set when no row carries it.  The
    select box offers exactly the month tokens present in the dataset, each
    once, in descending order, and every offered token selects at least one
    row; so the only selection outside the dataset that the page can pass
    on is the empty one of a dataset without rows, and it resolves to the
    empty period, not to an error. *)
Theorem monthly_filter_never_fails
  (df : list Row) (selected_month : option string) :
  filtered_df df (SelectMonth selected_month)
  = Ok (filter_month df selected_month) /\
  (forall r, In r (filter_month df selected_month) <->
             In r df /\ selected_month = Some (month r)) /\
  ((forall r, In r df -> selected_month <> Some (month r)) ->
   filter_month df selected_month = []) /\
  (forall token, In token (months df) <-> In token (map month df)) /\
  NoDup (months df) /\
  StronglySorted (fun a b => str_ltb a b = false) (months df) /\
  (forall picked token,
     selectbox (months df) picked = Some token ->
     exists r, In r (filter_month df (Some token))) /\
  (forall picked,
     selectbox (months df) picked = None \/
     exists token, selectbox (months df) picked = Some token /\
                   In token (map month df)) /\
  (df = [] ->
   months df = [] /\
   (forall picked, selectbox (months df) picked = None) /\
   filtered_df df (SelectMonth None) = Ok []).
Proof.
  split; [reflexivity |].
  split; [intros r; apply filter_month_In |].
  split.
  { intros Habsent.
    destruct (filter_month df selected_month) as [|r l] eqn:Hf;
      [reflexivity |].
    exfalso.
    assert (Hr : In r (filter_month df selected_month))
      by (rewrite Hf; left; reflexivity).
    apply filter_month_In in Hr. destruct Hr as [Hr Hsel].
    exact (Habsent r Hr Hsel). }
  split; [intros token; apply months_In |].
  split; [apply months_NoDup |].
  split; [apply months_descending |].
  split.
  { intros picked token Hpick. unfold selectbox in Hpick.
    apply nth_error_In in Hpick. apply months_In in Hpick.
    apply in_map_iff in Hpick. destruct Hpick as (r & Hm & Hr).
    exists r. apply filter_month_In. split; [exact Hr | congruence]. }
  split.
  { intros picked. unfold selectbox.
    destruct (nth_error (months df) picked) as [token |] eqn:Hpick;
      [right | left; reflexivity].
    exists token. split; [reflexivity |].
    apply months_In. eapply nth_error_In. exact Hpick. }
  intros ->. split; [reflexivity |].
  split; [intros [|picked]; reflexivity | reflexivity].
Qed.

(** ** Rows for the density map *)

Lemma dropna_coords_In (filtered : list Row) (r : Row) :
  In r (dropna_coords filtered) <->
  In r filtered /\ LATITUDE r <> None /\ LONGITUDE r <> None.
Proof.
  unfold dropna_coords. rewrite filter_In, andb_true_iff.
  destruct (LATITUDE r), (LONGITUDE r); simpl;
    intuition (congruence || discriminate).
Qed.

Lemma take_in_range (l : list Row) (locs : list Z) :
  (forall i, In i locs -> 0 <= i < len l) ->
  exists taken,
    take l locs = Ok taken /\
    len taken = len locs /\
    (forall r, In r taken -> In r l).
Proof.
  induction locs as [|i locs IH]; intros Hrange; simpl.
  - exists []. repeat split. contradiction.
  - destruct IH as (taken & Htake & Hlen & Hin).
    { intros j Hj. apply Hrange. right. exact Hj. }
    assert (Hi : 0 <= i < len l) by (apply Hrange; left; reflexivity).
    assert (Hneg : (i <? 0) = false) by (apply Z.ltb_ge; lia).
    rewrite Hneg.
    destruct (nth_error l (Z.to_nat i)) as [r|] eqn:Hnth.
    + rewrite Htake. simpl. exists (r :: taken).
      split; [reflexivity |]. split.
      * rewrite !len_cons. lia.
      * intros r' [<- | Hr']; [| apply Hin, Hr'].
        eapply nth_error_In. exact Hnth.
    + exfalso. apply nth_error_None in Hnth. unfold len in Hi. lia.
Qed.

(** C3.  For a generator whose [choice] returns as many positions as asked,
    all inside the frame, the rows handed to the density map are drawn from
    the filtered rows that have both a latitude and a longitude; their
    number is exactly [min(5000, eligible)]; up to the cap they are all the
    eligible rows.  The sample is seeded with the constant 42, so the
    result is the same whatever the state of the process-wide generator,
    which is left as it was: repeated calls return the identical sample. *)
Theorem map_rows_capped_and_seeded
  {G : Type} (rs : RandomState G) (filtered : list Row) (global : G)
  (Hsize : forall g n k, 0 <= k <= n -> len (fst (choice rs g n k)) = k)
  (Hrange : forall g n k i,
      0 <= k <= n -> In i (fst (choice rs g n k)) -> 0 <= i < n) :
  let eligible := dropna_coords filtered in
  (forall r, In r eligible <->
             In r filtered /\ LATITUDE r <> None /\ LONGITUDE r <> None) /\
  exists shown,
    map_df rs global filtered = Ok (shown, global) /\
    len shown = Z.min 5000 (len eligible) /\
    (forall r, In r shown -> In r eligible) /\
    (len eligible <= 5000 -> shown = eligible) /\
    forall global' : G, map_df rs global' filtered = Ok (shown, global').
Proof.
  intros eligible.
  split; [intros r; apply dropna_coords_In |].
  unfold map_df. fold eligible.
  destruct (len eligible >? 5000) eqn:Hcap.
  - apply Z.gtb_lt in Hcap.
    assert (Hk : 0 <= 5000 <= len eligible) by lia.
    unfold sample.
    assert (Hlt : (len eligible <? 5000) = false) by (apply Z.ltb_ge; lia).
    rewrite Hlt.
    specialize (Hsize (seeded rs 42) _ _ Hk).
    pose proof (fun i => Hrange (seeded rs 42) (len eligible) 5000 i Hk)
      as Hin.
    destruct (choice rs (seeded rs 42) (len eligible) 5000) as [locs g'].
    simpl in Hsize, Hin.
    destruct (take_in_range eligible locs) as (taken & Htake & Hlen & Hsub).
    { intros i Hi. apply (Hin i Hi). }
    rewrite Htake. simpl. exists taken.
    split; [reflexivity |]. split; [lia |]. split; [exact Hsub |].
    split; [lia | reflexivity].
  - assert (Hle : len eligible <= 5000).
    { destruct (Z.gtb_spec (len eligible) 5000); [discriminate | lia]. }
    exists eligible.
    split; [reflexivity |]. split; [lia |]. split; [tauto |].
    split; reflexivity.
Qed.

Lemma counting_rng_size (g n k : Z) :
  0 <= k <= n -> len (fst (choice counting_rng g n k)) = k.
Proof.
  intros Hk. simpl. unfold len. rewrite length_map, length_seq. lia.
Qed.

Lemma counting_rng_range (g n k i : Z) :
  0 <= k <= n -> In i (fst (choice counting_rng g n k)) -> 0 <= i < n.
Proof.
  intros Hk Hi. simpl in Hi. apply in_map_iff in Hi.
  destruct Hi as (j & <- & Hj). apply in_seq in Hj. lia.
Qed.

Lemma map_rows_capped_and_seeded_witness :
  let eligible := dropna_coords sample_rows in
  (forall r, In r eligible <->
             In r sample_rows /\ LATITUDE r <> None /\ LONGITUDE r <> None) /\
  exists shown,
    map_df counting_rng 7 sample_rows = Ok (shown, 7) /\
    len shown = Z.min 5000 (len eligible) /\
    (forall r, In r shown -> In r eligible) /\
    (len eligible <= 5000 -> shown = eligible) /\
    forall global' : Z, map_df counting_rng global' sample_rows
                        = Ok (shown, global').
Proof.
  apply (map_rows_capped_and_seeded counting_rng sample_rows 7).
  - exact counting_rng_size.
  - exact counting_rng_range.
Defined.

(** The sampling branch on 5001 eligible rows: 5000 rows are kept, and the
    process-wide generator is handed back as it was. *)
Example map_df_over_the_cap :
  let crowded := repeat (derive (theft, mkTimestamp 2024 3 15 8 0 0)) (Z.to_nat 5001) in
  match map_df counting_rng 99 crowded with
  | Ok (shown, g) => (len shown =? 5000) && (g =? 99)
  | Raise _ => false
  end = true.
Proof. vm_compute. reflexivity. Qed.

(** ** Counting values *)

Lemma occurrences_cons (v x : string) (s : list string) :
  occurrences v (x :: s)
  = occurrences v s + (if String.eqb v x then 1 else 0).
Proof.
  unfold occurrences. simpl.
  destruct (String.eqb v x); rewrite ?len_cons; lia.
Qed.

Lemma occurrences_nonneg (v : string) (s : list string) :
  0 <= occurrences v s.
Proof. apply len_nonneg. Qed.

Lemma occurrences_pos (v : string) (s : list string) :
  In v s <-> 0 < occurrences v s.
Proof.
  induction s as [|x s IH].
  - simpl. unfold occurrences, len. simpl. split; [contradiction | lia].
  - rewrite occurrences_cons. pose proof (occurrences_nonneg v s) as Hn.
    simpl. destruct (String.eqb_spec v x) as [-> | Hne].
    + split; [lia | auto].
    + rewrite Z.add_0_r, <- IH. split; [| auto].
      intros [H | H]; [congruence | exact H].
Qed.

Lemma bump_keys_In (k x : string) (table : list (string * Z)) :
  In x (map fst (bump k table)) <-> x = k \/ In x (map fst table).
Proof.
  induction table as [|[k' n] t IH]; simpl.
  - intuition congruence.
  - destruct (String.eqb_spec k k') as [-> | Hne]; simpl.
    + intuition congruence.
    + rewrite IH. intuition congruence.
Qed.

Lemma bump_keys_NoDup (k : string) (table : list (string * Z)) :
  NoDup (map fst table) -> NoDup (map fst (bump k table)).
Proof.
  induction table as [|[k' n] t IH]; simpl; intros Hn.
  - repeat constructor. simpl. tauto.
  - inversion Hn as [|? ? Hk' Ht]; subst.
    destruct (String.eqb_spec k k') as [-> | Hne]; simpl.
    + constructor; assumption.
    + constructor; [| apply IH, Ht].
      rewrite bump_keys_In. intros [H | H]; [congruence | contradiction].
Qed.

Lemma recorded_bump (k x : string) (table : list (string * Z)) :
  recorded x (bump k table)
  = recorded x table + (if String.eqb x k then 1 else 0).
Proof.
  induction table as [|[k' n] t IH]; simpl.
  - destruct (String.eqb x k); reflexivity.
  - destruct (String.eqb_spec k k') as [-> | Hne]; simpl.
    + destruct (String.eqb x k'); lia.
    + destruct (String.eqb_spec x k') as [-> | Hne'].
      * destruct (String.eqb_spec k' k); [congruence | lia].
      * apply IH.
Qed.

Lemma recorded_absent (x : string) (table : list (string * Z)) :
  ~ In x (map fst table) -> recorded x table = 0.
Proof.
  induction table as [|[k n] t IH]; simpl; intros Hx.
  - reflexivity.
  - destruct (String.eqb_spec x k) as [-> | Hne]; [tauto |].
    apply IH. tauto.
Qed.

Lemma recorded_In (k : string) (n : Z) (table : list (string * Z)) :
  NoDup (map fst table) ->
  (In (k, n) table <-> In k (map fst table) /\ recorded k table = n).
Proof.
  induction table as [|[k' n'] t IH]; simpl; intros Hn.
  - tauto.
  - inversion Hn as [|? ? Hk' Ht]; subst.
    destruct (String.eqb_spec k k') as [-> | Hne].
    + split.
      * intros [H | H]; [injection H as <-; auto |].
        exfalso. apply Hk'. apply in_map_iff. exists (k', n). auto.
      * intros [_ <-]. left. reflexivity.
    + rewrite (IH Ht). split.
      * intros [H | H]; [congruence | tauto].
      * intros [[H | H] Hr]; [congruence | tauto].
Qed.

Lemma fold_bump (s : list string) :
  forall table : list (string * Z),
    NoDup (map fst table) ->
    let table' := fold_left (fun t k => bump k t) s table in
    NoDup (map fst table') /\
    (forall x, In x (map fst table') <-> In x s \/ In x (map fst table)) /\
    (forall x, recorded x table' = recorded x table + occurrences x s).
Proof.
  induction s as [|k s IH]; intros table Hn; simpl.
  - split; [exact Hn |]. split; [tauto |].
    intros x. unfold occurrences, len. simpl. lia.
  - destruct (IH (bump k table) (bump_keys_NoDup k table Hn))
      as (Hn' & Hkeys & Hrec).
    split; [exact Hn' |]. split.
    + intros x. rewrite Hkeys, bump_keys_In. intuition congruence.
    + intros x. rewrite Hrec, recorded_bump, occurrences_cons. lia.
Qed.

Lemma tally_keys_NoDup (s : list string) : NoDup (map fst (tally s)).
Proof. apply (fold_bump s []). constructor. Qed.

Lemma tally_In (s : list string) (k : string) (n : Z) :
  In (k, n) (tally s) <-> In k s /\ n = occurrences k s.
Proof.
  destruct (fold_bump s [] (NoDup_nil _)) as (Hn & Hkeys & Hrec).
  fold (tally s) in Hn, Hkeys, Hrec.
  rewrite (recorded_In k n (tally s) Hn), Hkeys, Hrec. simpl.
  intuition lia.
Qed.

(** ** Most common crime type *)

Lemma description_count_occurrences (v : string) (filtered : list Row) :
  occurrences v (dropna (map PRIMARY_DESCRIPTION filtered))
  = description_count v filtered.
Proof.
  unfold description_count. induction filtered as [|r f IH]; simpl.
  - reflexivity.
  - destruct (PRIMARY_DESCRIPTION r) as [d|]; simpl.
    + rewrite occurrences_cons, IH, (String.eqb_sym v d).
      destruct (String.eqb d v); rewrite ?len_cons; lia.
    + exact IH.
Qed.

Lemma dropna_In (s : list (option string)) (v : string) :
  In v (dropna s) <-> In (Some v) s.
Proof.
  induction s as [|[x|] s IH]; simpl.
  - tauto.
  - rewrite IH. intuition congruence.
  - rewrite IH. intuition congruence.
Qed.

Lemma count_geb_total (x y : string * Z) :
  count_geb x y = false -> count_geb y x = true.
Proof. unfold count_geb. rewrite Z.leb_gt, Z.leb_le. lia. Qed.

Lemma count_geb_trans (x y z : string * Z) :
  count_geb x y = true -> count_geb y z = true -> count_geb x z = true.
Proof. unfold count_geb. rewrite !Z.leb_le. lia. Qed.

(** The first entry of [value_counts] is a value of the column with the
    largest number of occurrences. *)
Lemma value_counts_head (s : list (option string)) (v : string) :
  In (Some v) s ->
  exists top rest,
    value_counts s = (top, occurrences top (dropna s)) :: rest /\
    In (Some top) s /\
    forall other,
      occurrences other (dropna s) <= occurrences top (dropna s).
Proof.
  intros Hv. apply dropna_In in Hv.
  pose proof (sort_by_sorted count_geb count_geb_total count_geb_trans
                (tally (dropna s))) as Hsorted.
  fold (value_counts s) in Hsorted.
  assert (Hmem : forall k n, In (k, n) (value_counts s) <->
                             In k (dropna s) /\ n = occurrences k (dropna s)).
  { intros k n. unfold value_counts. rewrite sort_by_In. apply tally_In. }
  destruct (value_counts s) as [|[top n] rest] eqn:Hvc.
  - exfalso. apply (proj2 (Hmem v _) (conj Hv eq_refl)).
  - assert (Htop : In top (dropna s) /\ n = occurrences top (dropna s)).
    { apply Hmem. left. reflexivity. }
    destruct Htop as [Htop ->].
    exists top, rest. split; [reflexivity |].
    split; [apply dropna_In, Htop |].
    intros other.
    destruct (in_dec string_dec other (dropna s)) as [Hin | Hout].
    + assert (Ho : In (other, occurrences other (dropna s))
                     ((top, occurrences top (dropna s)) :: rest)).
      { apply Hmem. split; [exact Hin | reflexivity]. }
      destruct Ho as [Ho | Ho].
      * assert (Hsame : top = other) by congruence.
        rewrite Hsame. lia.
      * apply StronglySorted_inv in Hsorted. destruct Hsorted as [_ Hall].
        rewrite Forall_forall in Hall. specialize (Hall _ Ho).
        unfold count_geb in Hall. simpl in Hall.
        apply Z.leb_le in Hall. exact Hall.
    + pose proof (occurrences_pos other (dropna s)) as Hp.
      pose proof (occurrences_nonneg other (dropna s)).
      pose proof (occurrences_nonneg top (dropna s)).
      destruct (Z.eq_dec (occurrences other (dropna s)) 0) as [Hz | Hz];
        [lia |].
      exfalso. apply Hout, Hp. lia.
Qed.

(** C4.  On filtered rows whose descriptions are not all missing, the top
    crime type is a description that occurs among the rows and that no
    other description outnumbers (the mode); without rows it is the
    sentinel ["N/A"], and the number of distinct location types is 0. *)
Theorem top_crime_is_mode_or_sentinel (filtered : list Row)
  (Hdesc : filtered <> [] ->
           exists v, In (Some v) (map PRIMARY_DESCRIPTION filtered)) :
  (total_crimes filtered = 0 ->
   most_common_crime filtered = Ok "N/A" /\ unique_locations filtered = 0) /\
  (total_crimes filtered <> 0 ->
   exists top,
     most_common_crime filtered = Ok top /\
     In (Some top) (map PRIMARY_DESCRIPTION filtered) /\
     0 < description_count top filtered /\
     forall other,
       description_count other filtered <= description_count top filtered).
Proof.
  split.
  - intros H0. apply len_nil_iff in H0. subst filtered.
    split; reflexivity.
  - intros Hne.
    assert (Hrows : filtered <> []).
    { intros ->. apply Hne. reflexivity. }
    destruct (Hdesc Hrows) as [v Hv].
    destruct (value_counts_head _ v Hv) as (top & rest & Hvc & Htop & Hmax).
    exists top.
    pose proof (len_nonneg filtered) as Hn. fold (total_crimes filtered) in Hn.
    assert (Hpos : (total_crimes filtered >? 0) = true)
      by (apply Z.gtb_lt; lia).
    unfold most_common_crime. rewrite Hpos, Hvc. simpl.
    split; [reflexivity |]. split; [exact Htop |].
    split.
    + rewrite <- description_count_occurrences.
      apply occurrences_pos, dropna_In, Htop.
    + intros other. rewrite <- !description_count_occurrences. apply Hmax.
Qed.

Lemma top_crime_is_mode_or_sentinel_witness :
  (total_crimes sample_rows = 0 ->
   most_common_crime sample_rows = Ok "N/A" /\
   unique_locations sample_rows = 0) /\
  (total_crimes sample_rows <> 0 ->
   exists top,
     most_common_crime sample_rows = Ok top /\
     In (Some top) (map PRIMARY_DESCRIPTION sample_rows) /\
     0 < description_count top sample_rows /\
     forall other,
       description_count other sample_rows
       <= description_count top sample_rows).
Proof.
  apply (top_crime_is_mode_or_sentinel sample_rows).
  intros _. exists "THEFT". vm_compute. left. reflexivity.
Defined.

(** Rows that all lack a description are outside C4: [index[0]] of the
    empty count table raises. *)
Example most_common_crime_without_descriptions :
  most_common_crime
    [derive (mkRawRow (Some "03/15/2024 08:00:00 AM") None None None None
               None None None,
             mkTimestamp 2024 3 15 8 0 0)]
  = Raise IndexError.
Proof. reflexivity. Qed.

(** ** Crimes by day of week *)

Lemma category_code_In (categories : list string) (v : string) :
  In v categories ->
  exists i, category_code categories v = Some i /\
            nth_error categories i = Some v.
Proof.
  induction categories as [|c cs IH]; simpl; intros Hv.
  - contradiction.
  - destruct (String.eqb_spec v c) as [-> | Hne].
    + exists O. split; reflexivity.
    + destruct Hv as [Hv | Hv]; [congruence |].
      destruct (IH Hv) as (i & -> & Hnth).
      exists (S i). split; [reflexivity | exact Hnth].
Qed.

Lemma categorical_In (categories : list string) (v : string) :
  In v categories -> categorical categories v = Some v.
Proof.
  intros Hv. unfold categorical.
  destruct (category_code_In _ _ Hv) as (i & -> & _). reflexivity.
Qed.

Lemma category_rank_injective (categories : list string) (v w : string) :
  In v categories -> In w categories ->
  category_rank categories (Some v) = category_rank categories (Some w) ->
  v = w.
Proof.
  intros Hv Hw. simpl.
  destruct (category_code_In _ _ Hv) as (i & -> & Hi).
  destruct (category_code_In _ _ Hw) as (j & -> & Hj).
  intros <-. congruence.
Qed.

Lemma category_leb_total (categories : list string)
  (x y : option string * Z) :
  category_leb categories x y = false -> category_leb categories y x = true.
Proof. unfold category_leb. rewrite Nat.leb_gt, Nat.leb_le. lia. Qed.

Lemma category_leb_trans (categories : list string)
  (x y z : option string * Z) :
  category_leb categories x y = true ->
  category_leb categories y z = true ->
  category_leb categories x z = true.
Proof. unfold category_leb. rewrite !Nat.leb_le. lia. Qed.

Lemma StronglySorted_filter {A : Type} (R : A -> A -> Prop)
  (f : A -> bool) (l : list A) :
  StronglySorted R l -> StronglySorted R (filter f l).
Proof.
  induction 1 as [|a l Hs IH Ha]; simpl.
  - constructor.
  - destruct (f a); [| exact IH].
    constructor; [exact IH |].
    rewrite Forall_forall in *. intros x Hx.
    apply filter_In in Hx. apply Ha, Hx.
Qed.

Lemma StronglySorted_map {A B : Type} (R : B -> B -> Prop) (g : A -> B)
  (l : list A) :
  StronglySorted (fun a b => R (g a) (g b)) l -> StronglySorted R (map g l).
Proof.
  induction 1 as [|a l Hs IH Ha]; simpl.
  - constructor.
  - constructor; [exact IH |].
    rewrite Forall_forall in *. intros x Hx.
    apply in_map_iff in Hx. destruct Hx as (y & <- & Hy). apply Ha, Hy.
Qed.

Lemma day_order_NoDup : NoDup day_order.
Proof.
  unfold day_order.
  repeat (constructor;
          [simpl; intuition discriminate |]).
  constructor.
Qed.

Lemma day_order_sorted :
  StronglySorted
    (fun a b => (category_rank day_order (Some a)
                 <=? category_rank day_order (Some b))%nat = true)
    day_order.
Proof. unfold day_order. repeat constructor. Qed.

Lemma dt_day_name_In (t : Timestamp) : In (dt_day_name t) day_order.
Proof.
  unfold dt_day_name. apply nth_In.
  pose proof (weekday_range (dt_date t)). simpl. lia.
Qed.

Lemma filter_perm {A : Type} (f : A -> bool) (l l' : list A) :
  Permutation l l' -> Permutation (filter f l) (filter f l').
Proof.
  induction 1 as [| x l l' _ IH | x y l | l l' l'' _ IH1 _ IH2]; simpl.
  - constructor.
  - destruct (f x); [apply perm_skip |]; exact IH.
  - destruct (f x), (f y); try apply Permutation_refl. apply perm_swap.
  - eapply perm_trans; eassumption.
Qed.

Lemma occurrences_perm (v : string) (s s' : list string) :
  Permutation s s' -> occurrences v s = occurrences v s'.
Proof.
  intros Hp. unfold occurrences, len. f_equal.
  apply Permutation_length, filter_perm, Hp.
Qed.

Section DayData.
Variable s : list string.
Hypothesis days_named : forall d, In d s -> In d day_order.

Let typed (kc : string * Z) : option string * Z :=
  (categorical day_order (fst kc), snd kc).
Let entry (d : string) : option string * Z := (Some d, occurrences d s).
Let key_of (x : option string * Z) : string :=
  match fst x with
  | Some k => k
  | None => ""
  end.

Lemma groupby_size_In (k : string) (n : Z) :
  In (k, n) (groupby_size s) <-> In k s /\ n = occurrences k s.
Proof. unfold groupby_size. rewrite sort_by_In. apply tally_In. Qed.

Lemma groupby_size_keys_NoDup : NoDup (map fst (groupby_size s)).
Proof.
  apply (Permutation_NoDup (l := map fst (tally s))).
  - apply Permutation_map, Permutation_sym, sort_by_perm.
  - apply tally_keys_NoDup.
Qed.

Lemma typed_groups :
  map typed (groupby_size s)
  = map (fun kc => (Some (fst kc), snd kc)) (groupby_size s).
Proof.
  apply map_ext_in. intros [k n] Hkn. unfold typed. simpl.
  apply groupby_size_In in Hkn. destruct Hkn as [Hk _].
  rewrite (categorical_In _ _ (days_named k Hk)). reflexivity.
Qed.

Lemma sorted_groups_In (x : option string * Z) :
  In x (sort_values day_order (map typed (groupby_size s))) <->
  exists k, In k s /\ x = entry k.
Proof.
  unfold sort_values. rewrite sort_by_In, typed_groups, in_map_iff.
  split.
  - intros ([k n] & <- & Hkn). apply groupby_size_In in Hkn.
    destruct Hkn as [Hk ->]. exists k. split; [exact Hk | reflexivity].
  - intros (k & Hk & ->). exists (k, occurrences k s).
    split; [reflexivity |]. apply groupby_size_In. split; [exact Hk | reflexivity].
Qed.

Lemma calendar_entries_In (x : option string * Z) :
  In x (map entry (filter (fun d => existsb (String.eqb d) s) day_order)) <->
  exists k, In k s /\ x = entry k.
Proof.
  rewrite in_map_iff. split.
  - intros (k & <- & Hk). apply filter_In in Hk. destruct Hk as [_ Hk].
    apply existsb_eqb_In in Hk. exists k. split; [exact Hk | reflexivity].
  - intros (k & Hk & ->). exists k. split; [reflexivity |].
    apply filter_In. split; [apply days_named, Hk |].
    apply existsb_eqb_In, Hk.
Qed.

(** Lines 186-188 after the grouping key was read off the rows. *)
Lemma day_data_closed_form :
  sort_values day_order (map typed (groupby_size s))
  = map entry (filter (fun d => existsb (String.eqb d) s) day_order).
Proof.
  apply (sorted_lists_equal
           (fun a b => category_leb day_order a b = true)).
  - apply sort_by_sorted.
    + apply category_leb_total.
    + apply category_leb_trans.
  - apply StronglySorted_map, StronglySorted_filter.
    exact day_order_sorted.
  - apply (Permutation_NoDup
             (l := map typed (groupby_size s))).
    + apply Permutation_sym, sort_by_perm.
    + rewrite typed_groups. apply (NoDup_map_inv key_of).
      rewrite map_map. simpl. exact groupby_size_keys_NoDup.
  - apply (NoDup_map_inv key_of).
    rewrite map_map, (map_ext _ (fun d => d)), map_id
      by (intros; reflexivity).
    apply NoDup_filter, day_order_NoDup.
  - intros x. rewrite sorted_groups_In, calendar_entries_In. tauto.
  - intros x y Hx Hy Hxy Hyx.
    apply sorted_groups_In in Hx. destruct Hx as (k & Hk & ->).
    apply sorted_groups_In in Hy. destruct Hy as (k' & Hk' & ->).
    unfold category_leb in Hxy, Hyx. apply Nat.leb_le in Hxy, Hyx.
    assert (Hkk : k = k').
    { apply (category_rank_injective day_order);
        [apply days_named, Hk | apply days_named, Hk' |].
      simpl fst in Hxy, Hyx. lia. }
    subst k'. reflexivity.
Qed.
End DayData.

Lemma loaded_rows_day_named (to_datetime : parser)
  (read_csv : result RawFrame) (df : DataFrame) :
  load_data to_datetime read_csv = Ok df ->
  Forall (fun r => In (day_of_week r) day_order) (rows df).
Proof.
  unfold load_data. destruct read_csv as [raw | e]; simpl; [| discriminate].
  destruct (getitem_series _ _); simpl; [| discriminate].
  intros H. injection H as <-. simpl.
  apply Forall_forall. intros r Hr. apply in_map_iff in Hr.
  destruct Hr as ([raw_r t] & <- & _). simpl. apply dt_day_name_In.
Qed.

Lemma sample_rows_day_named :
  Forall (fun r => In (day_of_week r) day_order) sample_rows.
Proof.
  unfold sample_rows.
  destruct (load_data sample_parser (Ok sample_csv)) as [df | e] eqn:Hload.
  - exact (loaded_rows_day_named _ _ _ Hload).
  - constructor.
Qed.

Lemma existsb_eqb_perm (d : string) (s s' : list string) :
  Permutation s s' ->
  existsb (String.eqb d) s = existsb (String.eqb d) s'.
Proof.
  intros Hp. apply eq_true_iff_eq. rewrite !existsb_eqb_In.
  split; apply Permutation_in; [exact Hp | apply Permutation_sym, Hp].
Qed.

(** C6.  On filtered rows whose weekday names are day names (as the loader
    derives them), the weekday series lists exactly the observed weekdays,
    each with its number of rows, in the order of the fixed list Monday,
    Tuesday, ..., Sunday: it is that list with the unobserved days left
    out.  The series does not depend on the order of the rows. *)
Theorem weekday_series_in_calendar_order (filtered : list Row)
  (Hdays : Forall (fun r => In (day_of_week r) day_order) filtered) :
  let days := map day_of_week filtered in
  day_data filtered
  = map (fun d => (Some d, occurrences d days))
      (filter (fun d => existsb (String.eqb d) days) day_order) /\
  map fst (day_data filtered)
  = map Some (filter (fun d => existsb (String.eqb d) days) day_order) /\
  (forall reordered,
     Permutation filtered reordered ->
     day_data reordered = day_data filtered).
Proof.
  intros days.
  assert (Hclosed : forall rows' : list Row,
             Forall (fun r => In (day_of_week r) day_order) rows' ->
             day_data rows'
             = map (fun d => (Some d, occurrences d (map day_of_week rows')))
                 (filter (fun d => existsb (String.eqb d)
                                     (map day_of_week rows'))
                    day_order)).
  { intros rows' Hrows. unfold day_data.
    apply (day_data_closed_form (map day_of_week rows')).
    intros d Hd. apply in_map_iff in Hd. destruct Hd as (r & <- & Hr).
    rewrite Forall_forall in Hrows. apply Hrows, Hr. }
  split; [apply Hclosed, Hdays |].
  split.
  { rewrite (Hclosed filtered Hdays), map_map. fold days.
    rewrite <- (map_map (fun d => d) Some), map_id. reflexivity. }
  intros reordered Hperm.
  assert (Hdays' : Forall (fun r => In (day_of_week r) day_order) reordered).
  { rewrite Forall_forall in *. intros r Hr. apply Hdays.
    apply (Permutation_in _ (Permutation_sym Hperm)), Hr. }
  rewrite (Hclosed filtered Hdays), (Hclosed reordered Hdays').
  assert (Hp : Permutation (map day_of_week reordered)
                 (map day_of_week filtered))
    by (apply Permutation_map, Permutation_sym, Hperm).
  rewrite (filter_ext _ (fun d => existsb (String.eqb d)
                                    (map day_of_week filtered)))
    by (intros d; apply existsb_eqb_perm, Hp).
  apply map_ext. intros d. f_equal. apply occurrences_perm, Hp.
Qed.

Lemma weekday_series_in_calendar_order_witness :
  let days := map day_of_week sample_rows in
  day_data sample_rows
  = map (fun d => (Some d, occurrences d days))
      (filter (fun d => existsb (String.eqb d) days) day_order) /\
  map fst (day_data sample_rows)
  = map Some (filter (fun d => existsb (String.eqb d) days) day_order) /\
  (forall reordered,
     Permutation sample_rows reordered ->
     day_data reordered = day_data sample_rows).
Proof.
  apply (weekday_series_in_calendar_order sample_rows).
  exact sample_rows_day_named.
Defined.

(** The sample rows fall on Friday, Wednesday and Sunday, in this order;
    the series lists them Wednesday, Friday, Sunday. *)
Example day_data_sample :
  map day_of_week sample_rows = ["Friday"; "Wednesday"; "Sunday"] /\
  day_data sample_rows
  = [(Some "Wednesday", 1); (Some "Friday", 1); (Some "Sunday", 1)].
Proof. split; reflexivity. Qed.

(** * Further properties of the page *)

(** ** Weeks *)

(** X1.  Every date of a week resolves to that week: the weekly view is the same
    whichever of its seven days is picked. *)
Theorem dates_of_a_week_share_the_week
  (anchor d : Calendar.date)
  (Hlo : 1 <= anchor) (Hhi : anchor <= MAXORDINAL - 6)
  (Hd : anchor - weekday anchor <= d <= anchor - weekday anchor + 6) :
  week_start d = week_start anchor /\
  week_end d = week_end anchor /\
  forall df, filtered_df df (SelectWeek d) = filtered_df df (SelectWeek anchor).
Proof.
  pose proof (weekday_range anchor) as Hw.
  pose proof (weekday_of_monday anchor) as Hmon.
  assert (H1 : 1 <= anchor - weekday anchor).
  { unfold weekday in *. Z.to_euclidean_division_equations. lia. }
  assert (Hwd : weekday d = d - (anchor - weekday anchor)).
  { unfold weekday in *. Z.to_euclidean_division_equations. lia. }
  assert (Hsa : week_start anchor = Ok (anchor - weekday anchor))
    by (apply week_start_ok; unfold MAXORDINAL in *; lia).
  assert (Hsd : week_start d = Ok (anchor - weekday anchor)).
  { rewrite week_start_ok by (unfold MAXORDINAL in *; lia).
    f_equal. lia. }
  split; [congruence |].
  split.
  - unfold week_end. rewrite Hsa, Hsd. reflexivity.
  - intros df. simpl. rewrite Hsa, Hsd. reflexivity.
Qed.

Lemma dates_of_a_week_share_the_week_witness :
  week_start (ymd2ord 2024 3 17) = week_start (ymd2ord 2024 3 13) /\
  week_end (ymd2ord 2024 3 17) = week_end (ymd2ord 2024 3 13) /\
  forall df,
    filtered_df df (SelectWeek (ymd2ord 2024 3 17))
    = filtered_df df (SelectWeek (ymd2ord 2024 3 13)).
Proof.
  apply (dates_of_a_week_share_the_week (ymd2ord 2024 3 13)
           (ymd2ord 2024 3 17));
    [ vm_compute; discriminate
    | vm_compute; discriminate
    | split; vm_compute; discriminate ].
Defined.

(** X2.  On the dates Python can represent the week start never leaves the
    range ([date.min] is a Monday); the week end does for the Monday to
    Friday of the week that contains [date.max], and only then: there the
    weekly view ends in [OverflowError]. *)
Theorem weekly_view_overflows_only_in_the_last_week
  (anchor : Calendar.date)
  (Hlo : 1 <= anchor) (Hhi : anchor <= MAXORDINAL) :
  week_start anchor = Ok (anchor - weekday anchor) /\
  1 <= anchor - weekday anchor <= anchor /\
  forall df,
    (MAXORDINAL - 4 <= anchor ->
     filtered_df df (SelectWeek anchor) = Raise OverflowError) /\
    (anchor < MAXORDINAL - 4 ->
     filtered_df df (SelectWeek anchor)
     = Ok (filter_range df (anchor - weekday anchor)
             (anchor - weekday anchor + 6))).
Proof.
  pose proof (weekday_range anchor) as Hw.
  assert (Hws : week_start anchor = Ok (anchor - weekday anchor))
    by (apply week_start_ok; lia).
  assert (H1 : 1 <= anchor - weekday anchor).
  { unfold weekday in *. Z.to_euclidean_division_equations. lia. }
  split; [exact Hws |]. split; [lia |].
  intros df. split; intros Hedge; simpl; rewrite Hws; simpl.
  - assert (Hday : anchor - weekday anchor = MAXORDINAL - 4).
    { unfold weekday, MAXORDINAL in *.
      Z.to_euclidean_division_equations. lia. }
    rewrite Hday. reflexivity.
  - assert (Hday : anchor - weekday anchor + 6 <= MAXORDINAL).
    { unfold weekday, MAXORDINAL in *.
      Z.to_euclidean_division_equations. lia. }
    rewrite add_days_in_range by lia. reflexivity.
Qed.

Lemma weekly_view_overflows_only_in_the_last_week_witness :
  week_start (ymd2ord 9999 12 31)
  = Ok (ymd2ord 9999 12 31 - weekday (ymd2ord 9999 12 31)) /\
  1 <= ymd2ord 9999 12 31 - weekday (ymd2ord 9999 12 31)
    <= ymd2ord 9999 12 31 /\
  forall df,
    (MAXORDINAL - 4 <= ymd2ord 9999 12 31 ->
     filtered_df df (SelectWeek (ymd2ord 9999 12 31)) = Raise OverflowError) /\
    (ymd2ord 9999 12 31 < MAXORDINAL - 4 ->
     filtered_df df (SelectWeek (ymd2ord 9999 12 31))
     = Ok (filter_range df
             (ymd2ord 9999 12 31 - weekday (ymd2ord 9999 12 31))
             (ymd2ord 9999 12 31 - weekday (ymd2ord 9999 12 31) + 6))).
Proof.
  apply (weekly_view_overflows_only_in_the_last_week (ymd2ord 9999 12 31));
    vm_compute; discriminate.
Defined.

Lemma filter_day_In (df : list Row) (d : Calendar.date) (r : Row) :
  In r (filter_day df d) <-> In r df /\ date r = d.
Proof. unfold filter_day. rewrite filter_In, Z.eqb_eq. tauto. Qed.

(** X3.  The rows of a week are the rows of its seven days: each daily view of
    the week is part of the weekly view, and the weekly total is the sum of
    the seven daily totals. *)
Theorem weekly_rows_split_into_days (df : list Row) (ws : Calendar.date) :
  (forall k r, 0 <= k <= 6 ->
               In r (filter_day df (ws + k)) ->
               In r (filter_range df ws (ws + 6))) /\
  (forall r, In r (filter_range df ws (ws + 6)) ->
             exists k, 0 <= k <= 6 /\ In r (filter_day df (ws + k))) /\
  total_crimes (filter_range df ws (ws + 6))
  = total_crimes (filter_day df ws)
    + total_crimes (filter_day df (ws + 1))
    + total_crimes (filter_day df (ws + 2))
    + total_crimes (filter_day df (ws + 3))
    + total_crimes (filter_day df (ws + 4))
    + total_crimes (filter_day df (ws + 5))
    + total_crimes (filter_day df (ws + 6)).
Proof.
  split; [| split].
  - intros k r Hk Hr. apply filter_day_In in Hr. destruct Hr as [Hr Hd].
    apply filter_range_In. split; [exact Hr | lia].
  - intros r Hr. apply filter_range_In in Hr. destruct Hr as [Hr Hd].
    exists (date r - ws). split; [lia |].
    apply filter_day_In. split; [exact Hr | lia].
  - unfold total_crimes, filter_range, filter_day.
    induction df as [|r df IH]; [reflexivity |].
    cbn [filter].
    destruct (Z.geb_spec (date r) ws), (Z.leb_spec (date r) (ws + 6)),
      (Z.eqb_spec (date r) ws), (Z.eqb_spec (date r) (ws + 1)),
      (Z.eqb_spec (date r) (ws + 2)), (Z.eqb_spec (date r) (ws + 3)),
      (Z.eqb_spec (date r) (ws + 4)), (Z.eqb_spec (date r) (ws + 5)),
      (Z.eqb_spec (date r) (ws + 6));
      cbn [andb]; rewrite ?len_cons; lia.
Qed.

(** ** Data summary *)

(** X13.  The two overall rates of the summary have no zero guard: on a dataset
    without rows they end in [ZeroDivisionError]; on any other dataset they
    are computed, lie between 0 and 100, and agree with the guarded rates
    of the key figures taken over the whole dataset. *)
Theorem overall_rates_need_rows (df : list Row) :
  (df = [] ->
   overall_arrest_rate df = Raise ZeroDivisionError /\
   overall_domestic_rate df = Raise ZeroDivisionError /\
   arrest_rate df = Ok 0%Q /\ domestic_rate df = Ok 0%Q) /\
  (df <> [] ->
   exists ar dr : Q,
     overall_arrest_rate df = Ok ar /\
     overall_domestic_rate df = Ok dr /\
     arrest_rate df = Ok ar /\ domestic_rate df = Ok dr /\
     (0 <= ar /\ ar <= 100)%Q /\ (0 <= dr /\ dr <= 100)%Q).
Proof.
  split.
  - intros ->. repeat split.
  - intros Hne.
    assert (Hpos : 0 < len df).
    { pose proof (len_nonneg df). pose proof (len_nil_iff df). 
      destruct (Z.eq_dec (len df) 0); [tauto | lia]. }
    assert (Hz : (len df =? 0) = false) by (apply Z.eqb_neq; lia).
    unfold overall_arrest_rate, overall_domestic_rate, overall_rate, truediv,
      arrest_rate, domestic_rate, total_crimes.
    rewrite Hz, !rate_positive_total by exact Hpos. simpl.
    eexists; eexists.
    split; [reflexivity |]. split; [reflexivity |].
    split; [reflexivity |]. split; [reflexivity |].
    split; apply quotient_percent_bounds;
      try exact Hpos; [apply arrests_le_total | apply domestic_le_total].
Qed.

(** ** Top crime label *)

Lemma string_length_append (a b : string) :
  String.length (a ++ b) = (String.length a + String.length b)%nat.
Proof. induction a as [|c a IH]; simpl; [reflexivity | now rewrite IH]. Qed.

Lemma substring_0_length (n : nat) (s : string) :
  String.length (substring 0 n s) = Nat.min n (String.length s).
Proof.
  revert s. induction n as [|n IH]; intros [|c s]; simpl; try reflexivity.
  now rewrite IH.
Qed.

Lemma substring_0_prefix (n : nat) (s : string) :
  prefix (substring 0 n s) s = true.
Proof.
  revert s. induction n as [|n IH]; intros [|c s]; simpl; try reflexivity.
  destruct (ascii_dec c c) as [_ | Hne]; [apply IH | congruence].
Qed.

(** X9.  The label shown for the top crime type never has more than 15
    characters: a name shorter than 15 is shown unchanged, a longer one is
    cut to its first 12 characters followed by three dots. *)
Theorem top_crime_label_fits (name : string) :
  (String.length (top_crime_label name) <= 15)%nat /\
  ((String.length name < 15)%nat -> top_crime_label name = name) /\
  ((15 <= String.length name)%nat ->
   top_crime_label name = substring 0 12 name ++ "..." /\
   String.length (top_crime_label name) = 15%nat /\
   prefix (substring 0 12 name) name = true /\
   String.length (substring 0 12 name) = 12%nat).
Proof.
  unfold top_crime_label.
  destruct (Nat.ltb_spec (String.length name) 15) as [Hlt | Hge].
  - split; [lia |]. split; [reflexivity | lia].
  - rewrite string_length_append, substring_0_length.
    change (String.length "...") with 3%nat.
    split; [lia |]. split; [lia |]. intros _.
    split; [reflexivity |]. split; [lia |].
    split; [apply substring_0_prefix | lia].
Qed.

(** ** Hour bands *)

(** X7.  The four bands are half-open six-hour ranges of the day: Morning from
    6, Afternoon from 12, Evening from 18, and Night for the hours before 6
    (an hour outside 0..23 would count as Night below 6 or from 24 on). *)
Theorem hour_bands_are_half_open (h : Z) :
  (categorize_hour h = "Morning" <-> 6 <= h < 12) /\
  (categorize_hour h = "Afternoon" <-> 12 <= h < 18) /\
  (categorize_hour h = "Evening" <-> 18 <= h < 24) /\
  (categorize_hour h = "Night" <-> h < 6 \/ 24 <= h) /\
  (0 <= h < 24 -> (categorize_hour h = "Night" <-> h < 6)).
Proof.
  unfold categorize_hour.
  destruct (Z.leb_spec 6 h), (Z.ltb_spec h 12), (Z.leb_spec 12 h),
    (Z.ltb_spec h 18), (Z.leb_spec 18 h), (Z.ltb_spec h 24);
    cbn [andb]; repeat split; intros; try lia; try discriminate;
    try reflexivity.
Qed.

(** ** Counting, for any key type *)

Lemma total_count_cons {K : Type} (x : K * Z) (l : list (K * Z)) :
  total_count (x :: l) = snd x + total_count l.
Proof. reflexivity. Qed.

Lemma total_count_perm {K : Type} (l l' : list (K * Z)) :
  Permutation l l' -> total_count l = total_count l'.
Proof.
  induction 1 as [| x l l' _ IH | x y l | l l' l'' _ IH1 _ IH2].
  - reflexivity.
  - rewrite !total_count_cons, IH. reflexivity.
  - rewrite !total_count_cons. lia.
  - congruence.
Qed.

Lemma total_count_firstn {K : Type} (n : nat) (l : list (K * Z)) :
  (forall x, In x l -> 0 <= snd x) ->
  total_count (firstn n l) <= total_count l.
Proof.
  revert n. induction l as [|x l IH]; intros n Hpos.
  - rewrite firstn_nil. lia.
  - destruct n as [|n]; simpl firstn.
    + rewrite total_count_cons.
      assert (0 <= total_count l).
      { clear IH. induction l as [|y l IHl]; [cbn; lia |].
        rewrite total_count_cons.
        assert (0 <= snd y) by (apply Hpos; right; left; reflexivity).
        assert (0 <= total_count l).
        { apply IHl. intros z [Hz | Hz]; apply Hpos; [left | right; right];
            assumption. }
        lia. }
      assert (0 <= snd x) by (apply Hpos; left; reflexivity).
      cbn. lia.
    + rewrite !total_count_cons.
      assert (total_count (firstn n l) <= total_count l).
      { apply IH. intros z Hz. apply Hpos. right. exact Hz. }
      lia.
Qed.

Section CountingByFacts.
Context {K : Type} (eqb : K -> K -> bool).
Hypothesis eqb_spec : forall a b, reflect (a = b) (eqb a b).

Lemma count_by_cons (v x : K) (s : list K) :
  count_by eqb v (x :: s) = count_by eqb v s + (if eqb v x then 1 else 0).
Proof.
  unfold count_by. simpl. destruct (eqb v x); rewrite ?len_cons; lia.
Qed.

Lemma count_by_nonneg (v : K) (s : list K) : 0 <= count_by eqb v s.
Proof. apply len_nonneg. Qed.

Lemma count_by_pos (v : K) (s : list K) : In v s <-> 0 < count_by eqb v s.
Proof.
  induction s as [|x s IH].
  - unfold count_by, len. simpl. split; [contradiction | lia].
  - rewrite count_by_cons. pose proof (count_by_nonneg v s) as Hn.
    simpl. destruct (eqb_spec v x) as [-> | Hne].
    + split; [lia | auto].
    + rewrite Z.add_0_r, <- IH. split; [| auto].
      intros [H | H]; [congruence | exact H].
Qed.

Lemma bump_by_keys_In (k x : K) (table : list (K * Z)) :
  In x (map fst (bump_by eqb k table)) <-> x = k \/ In x (map fst table).
Proof.
  induction table as [|[k' n] t IH]; simpl.
  - intuition congruence.
  - destruct (eqb_spec k k') as [-> | Hne]; simpl.
    + intuition congruence.
    + rewrite IH. intuition congruence.
Qed.

Lemma bump_by_keys_NoDup (k : K) (table : list (K * Z)) :
  NoDup (map fst table) -> NoDup (map fst (bump_by eqb k table)).
Proof.
  induction table as [|[k' n] t IH]; simpl; intros Hn.
  - repeat constructor. simpl. tauto.
  - inversion Hn as [|? ? Hk' Ht]; subst.
    destruct (eqb_spec k k') as [-> | Hne]; simpl.
    + constructor; assumption.
    + constructor; [| apply IH, Ht].
      rewrite bump_by_keys_In. intros [H | H]; [congruence | contradiction].
Qed.

Lemma recorded_by_bump (k x : K) (table : list (K * Z)) :
  recorded_by eqb x (bump_by eqb k table)
  = recorded_by eqb x table + (if eqb x k then 1 else 0).
Proof.
  induction table as [|[k' n] t IH]; simpl.
  - destruct (eqb x k); reflexivity.
  - destruct (eqb_spec k k') as [-> | Hne]; simpl.
    + destruct (eqb x k'); lia.
    + destruct (eqb_spec x k') as [-> | Hne'].
      * destruct (eqb_spec k' k); [congruence | lia].
      * apply IH.
Qed.

Lemma recorded_by_In (k : K) (n : Z) (table : list (K * Z)) :
  NoDup (map fst table) ->
  (In (k, n) table <-> In k (map fst table) /\ recorded_by eqb k table = n).
Proof.
  induction table as [|[k' n'] t IH]; simpl; intros Hn.
  - tauto.
  - inversion Hn as [|? ? Hk' Ht]; subst.
    destruct (eqb_spec k k') as [-> | Hne].
    + split.
      * intros [H | H]; [injection H as <-; auto |].
        exfalso. apply Hk'. apply in_map_iff. exists (k', n). auto.
      * intros [_ <-]. left. reflexivity.
    + rewrite (IH Ht). split.
      * intros [H | H]; [congruence | tauto].
      * intros [[H | H] Hr]; [congruence | tauto].
Qed.

Lemma total_count_bump_by (k : K) (table : list (K * Z)) :
  total_count (bump_by eqb k table) = total_count table + 1.
Proof.
  induction table as [|[k' n] t IH]; simpl.
  - reflexivity.
  - destruct (eqb k k'); rewrite !total_count_cons; simpl; [| rewrite IH];
      lia.
Qed.

Lemma fold_bump_by (s : list K) :
  forall table : list (K * Z),
    NoDup (map fst table) ->
    let table' := fold_left (fun t k => bump_by eqb k t) s table in
    NoDup (map fst table') /\
    (forall x, In x (map fst table') <-> In x s \/ In x (map fst table)) /\
    (forall x, recorded_by eqb x table'
               = recorded_by eqb x table + count_by eqb x s) /\
    total_count table' = total_count table + len s.
Proof.
  induction s as [|k s IH]; intros table Hn; simpl.
  - split; [exact Hn |]. split; [tauto |]. split.
    + intros x. unfold count_by, len. simpl. lia.
    + unfold len. simpl. lia.
  - destruct (IH (bump_by eqb k table) (bump_by_keys_NoDup k table Hn))
      as (Hn' & Hkeys & Hrec & Hsum).
    split; [exact Hn' |]. split; [| split].
    + intros x. rewrite Hkeys, bump_by_keys_In. intuition congruence.
    + intros x. rewrite Hrec, recorded_by_bump, count_by_cons. lia.
    + rewrite Hsum, total_count_bump_by, len_cons. lia.
Qed.

Lemma tally_by_keys_NoDup (s : list K) : NoDup (map fst (tally_by eqb s)).
Proof. apply (fold_bump_by s []). constructor. Qed.

Lemma tally_by_In (s : list K) (k : K) (n : Z) :
  In (k, n) (tally_by eqb s) <-> In k s /\ n = count_by eqb k s.
Proof.
  destruct (fold_bump_by s [] (NoDup_nil _)) as (Hn & Hkeys & Hrec & _).
  fold (tally_by eqb s) in Hn, Hkeys, Hrec.
  rewrite (recorded_by_In k n (tally_by eqb s) Hn), Hkeys, Hrec. simpl.
  intuition lia.
Qed.

Lemma tally_by_total (s : list K) : total_count (tally_by eqb s) = len s.
Proof.
  destruct (fold_bump_by s [] (NoDup_nil _)) as (_ & _ & _ & Hsum).
  exact Hsum.
Qed.
End CountingByFacts.

(** ** Series by hour and by date *)

Lemma int_key_leb_total (x y : Z * Z) :
  int_key_leb x y = false -> int_key_leb y x = true.
Proof. unfold int_key_leb. rewrite Z.leb_gt, Z.leb_le. lia. Qed.

Lemma int_key_leb_trans (x y z : Z * Z) :
  int_key_leb x y = true -> int_key_leb y z = true -> int_key_leb x z = true.
Proof. unfold int_key_leb. rewrite !Z.leb_le. lia. Qed.

Lemma sorted_keys_strict (l : list (Z * Z)) :
  StronglySorted (fun a b => int_key_leb a b = true) l ->
  NoDup (map fst l) ->
  StronglySorted (fun a b => fst a < fst b) l.
Proof.
  induction 1 as [|a l Hs IH Ha]; simpl; intros Hn.
  - constructor.
  - inversion Hn as [|? ? Hna Hn']; subst.
    constructor; [apply IH, Hn' |].
    rewrite Forall_forall in *. intros b Hb.
    specialize (Ha b Hb). unfold int_key_leb in Ha. apply Z.leb_le in Ha.
    assert (fst a <> fst b).
    { intros Heq. apply Hna. rewrite Heq. apply in_map, Hb. }
    lia.
Qed.

Lemma groupby_size_int_spec (s : list Z) :
  StronglySorted (fun a b => fst a < fst b) (groupby_size_int s) /\
  (forall k n, In (k, n) (groupby_size_int s) <->
               In k s /\ n = count_by Z.eqb k s) /\
  total_count (groupby_size_int s) = len s.
Proof.
  unfold groupby_size_int. split; [| split].
  - apply sorted_keys_strict.
    + apply sort_by_sorted;
        [apply int_key_leb_total | apply int_key_leb_trans].
    + apply (Permutation_NoDup (l := map fst (tally_by Z.eqb s))).
      * apply Permutation_map, Permutation_sym, sort_by_perm.
      * apply tally_by_keys_NoDup, Z.eqb_spec.
  - intros k n. rewrite sort_by_In. apply tally_by_In, Z.eqb_spec.
  - rewrite (total_count_perm _ _ (sort_by_perm int_key_leb _)).
    apply tally_by_total, Z.eqb_spec.
Qed.

Lemma count_by_column {A : Type} (col : A -> Z) (k : Z) (l : list A) :
  count_by Z.eqb k (map col l) = len (filter (fun a => col a =? k) l).
Proof.
  unfold count_by. induction l as [|a l IH]; simpl; [reflexivity |].
  rewrite (Z.eqb_sym k (col a)).
  destruct (col a =? k); rewrite ?len_cons; rewrite IH; reflexivity.
Qed.

(** X5.  The hourly series has one bucket for every hour that occurs among the
    filtered rows and none for the others; the buckets come in ascending
    order of the hour, each holds the number of rows of its hour (at least
    one) and the label of its hour, and the counts add up to the total. *)
Theorem hourly_series_counts_observed_hours (filtered : list Row) :
  StronglySorted (fun a b => fst (fst a) < fst (fst b))
    (hourly_data filtered) /\
  (forall h n label,
     In (h, n, label) (hourly_data filtered) <->
     In h (map hour filtered) /\
     n = len (filter (fun r => hour r =? h) filtered) /\
     label = hour_label h) /\
  (forall h n label, In (h, n, label) (hourly_data filtered) -> 0 < n) /\
  total_count (map fst (hourly_data filtered)) = total_crimes filtered.
Proof.
  destruct (groupby_size_int_spec (map hour filtered))
    as (Hsorted & Hmem & Hsum).
  assert (Hin : forall h n label,
             In (h, n, label) (hourly_data filtered) <->
             In h (map hour filtered) /\
             n = len (filter (fun r => hour r =? h) filtered) /\
             label = hour_label h).
  { intros h n label. unfold hourly_data. rewrite in_map_iff. split.
    - intros ([k c] & Heq & Hkc). simpl in Heq.
      injection Heq as -> -> <-. apply Hmem in Hkc.
      rewrite count_by_column in Hkc. tauto.
    - intros (Hh & -> & ->). exists (h, len (filter (fun r => hour r =? h) filtered)).
      split; [reflexivity |]. apply Hmem. rewrite count_by_column. tauto. }
  split; [| split; [exact Hin | split]].
  - unfold hourly_data. apply StronglySorted_map. exact Hsorted.
  - intros h n label Hb. apply Hin in Hb. destruct Hb as (Hh & -> & _).
    rewrite <- count_by_column. apply count_by_pos; [apply Z.eqb_spec | exact Hh].
  - unfold hourly_data. rewrite map_map. simpl.
    rewrite (map_ext _ (fun kc => kc)) by (intros [k c]; reflexivity).
    rewrite map_id, Hsum. unfold total_crimes, len.
    rewrite length_map. reflexivity.
Qed.

(** X4.  The daily series of the monthly view has one point for every date that
    occurs among the filtered rows and none for the other days of the
    month; the points come in ascending order of the date, each holds the
    number of rows of its date, which is the total of the daily view of
    that date, and the counts add up to the total. *)
Theorem daily_series_counts_observed_dates (filtered : list Row) :
  StronglySorted (fun a b => fst a < fst b) (daily_data filtered) /\
  (forall d n,
     In (d, n) (daily_data filtered) <->
     In d (map date filtered) /\
     n = total_crimes (filter_day filtered d)) /\
  (forall d n, In (d, n) (daily_data filtered) -> 0 < n) /\
  total_count (daily_data filtered) = total_crimes filtered.
Proof.
  destruct (groupby_size_int_spec (map date filtered))
    as (Hsorted & Hmem & Hsum).
  assert (Hin : forall d n,
             In (d, n) (daily_data filtered) <->
             In d (map date filtered) /\
             n = total_crimes (filter_day filtered d)).
  { intros d n. unfold daily_data. rewrite Hmem, count_by_column.
    reflexivity. }
  split; [exact Hsorted |]. split; [exact Hin |]. split.
  - intros d n Hb. apply Hin in Hb. destruct Hb as (Hd & ->).
    unfold total_crimes, filter_day. rewrite <- count_by_column.
    apply count_by_pos; [apply Z.eqb_spec | exact Hd].
  - transitivity (len (map date filtered)); [exact Hsum |].
    unfold total_crimes, len. rewrite length_map. reflexivity.
Qed.

Lemma hour_in_day (h : Z) :
  0 <= h < 24 -> In h (map Z.of_nat (seq 0 24)).
Proof.
  intros Hh. apply in_map_iff. exists (Z.to_nat h).
  split; [lia | apply in_seq; lia].
Qed.

Lemma hour_labels_checked :
  forallb
    (fun a =>
       forallb
         (fun b =>
            (String.length (hour_label a) =? 5)%nat
            && Bool.eqb (a <? b) (str_ltb (hour_label a) (hour_label b)))
         (map Z.of_nat (seq 0 24)))
    (map Z.of_nat (seq 0 24))
  = true.
Proof. vm_compute. reflexivity. Qed.

(** X6.  The labels of the hours of a day are five characters long ("HH:00"),
    and they sort as text the way the hours sort as numbers, so two hours
    never share a label. *)
Theorem hour_labels_sort_like_hours (h h' : Z)
  (Hh : 0 <= h < 24) (Hh' : 0 <= h' < 24) :
  String.length (hour_label h) = 5%nat /\
  (str_ltb (hour_label h) (hour_label h') = true <-> h < h') /\
  (hour_label h = hour_label h' <-> h = h').
Proof.
  assert (Hpair : forall a b, 0 <= a < 24 -> 0 <= b < 24 ->
             String.length (hour_label a) = 5%nat /\
             (str_ltb (hour_label a) (hour_label b) = true <-> a < b)).
  { intros a b Ha Hb.
    pose proof hour_labels_checked as Hall.
    rewrite forallb_forall in Hall.
    specialize (Hall a (hour_in_day a Ha)).
    rewrite forallb_forall in Hall.
    specialize (Hall b (hour_in_day b Hb)).
    apply andb_true_iff in Hall. destruct Hall as [Hlen Hord].
    apply Nat.eqb_eq in Hlen. apply Bool.eqb_prop in Hord.
    split; [exact Hlen |]. rewrite <- Hord. apply Z.ltb_lt. }
  destruct (Hpair h h' Hh Hh') as [Hlen Hlt].
  destruct (Hpair h' h Hh' Hh) as [_ Hgt].
  split; [exact Hlen |]. split; [exact Hlt |].
  split; [| intros ->; reflexivity].
  intros Heq.
  assert (Hirr : str_ltb (hour_label h') (hour_label h') = false).
  { pose proof (proj2 (String_as_OT.cmp_eq (hour_label h') (hour_label h'))
                  eq_refl) as Hrefl.
    unfold String_as_OT.cmp in Hrefl. unfold str_ltb. rewrite Hrefl.
    reflexivity. }
  destruct (Z.lt_trichotomy h h') as [Hc | [Hc | Hc]]; [| exact Hc |].
  - apply Hlt in Hc. rewrite Heq in Hc. congruence.
  - apply Hgt in Hc. rewrite Heq in Hc. congruence.
Qed.

Lemma hour_labels_sort_like_hours_witness :
  String.length (hour_label 8) = 5%nat /\
  (str_ltb (hour_label 8) (hour_label 23) = true <-> 8 < 23) /\
  (hour_label 8 = hour_label 23 <-> 8 = 23).
Proof.
  apply (hour_labels_sort_like_hours 8 23); lia.
Defined.

(** ** Top lists *)

Lemma StronglySorted_app_inv {A : Type} (R : A -> A -> Prop)
  (l1 l2 : list A) :
  StronglySorted R (l1 ++ l2) ->
  StronglySorted R l1 /\
  (forall x y, In x l1 -> In y l2 -> R x y).
Proof.
  induction l1 as [|a l1 IH]; simpl; intros Hs.
  - split; [constructor | contradiction].
  - apply StronglySorted_inv in Hs. destruct Hs as [Hs Ha].
    destruct (IH Hs) as [Hs1 Hcross].
    rewrite Forall_forall in Ha. split.
    + constructor; [exact Hs1 |]. apply Forall_forall.
      intros x Hx. apply Ha, in_or_app. left. exact Hx.
    + intros x y [<- | Hx] Hy.
      * apply Ha, in_or_app. right. exact Hy.
      * apply Hcross; assumption.
Qed.

Lemma occurrences_column (col : Row -> option string) (v : string)
  (filtered : list Row) :
  occurrences v (dropna (map col filtered))
  = len (filter (fun r => cell_eqb (col r) v) filtered).
Proof.
  induction filtered as [|r f IH]; simpl.
  - reflexivity.
  - destruct (col r) as [d|]; simpl.
    + rewrite occurrences_cons, IH, (String.eqb_sym v d).
      destruct (String.eqb d v); rewrite ?len_cons; lia.
    + exact IH.
Qed.

Lemma dropna_length_le (s : list (option string)) :
  len (dropna s) <= len s.
Proof.
  induction s as [|[v|] s IH]; simpl; rewrite ?len_cons; unfold len in *;
    simpl; lia.
Qed.

Lemma value_counts_spec (s : list (option string)) :
  NoDup (map fst (value_counts s)) /\
  StronglySorted (fun a b => snd b <= snd a) (value_counts s) /\
  (forall k n, In (k, n) (value_counts s) <->
               In (Some k) s /\ n = occurrences k (dropna s)) /\
  total_count (value_counts s) = len (dropna s) /\
  len (value_counts s) = nunique s.
Proof.
  unfold value_counts.
  pose proof (sort_by_perm count_geb (tally (dropna s))) as Hperm.
  split; [| split; [| split; [| split]]].
  - apply (Permutation_NoDup (l := map fst (tally (dropna s)))).
    + apply Permutation_map, Permutation_sym, Hperm.
    + apply tally_keys_NoDup.
  - eapply StronglySorted_weaken;
      [| apply (sort_by_sorted count_geb count_geb_total count_geb_trans)].
    intros a b _ _ H. unfold count_geb in H. apply Z.leb_le in H. exact H.
  - intros k n. rewrite sort_by_In, tally_In, dropna_In. reflexivity.
  - rewrite (total_count_perm _ _ Hperm).
    change (tally (dropna s)) with (tally_by String.eqb (dropna s)).
    apply tally_by_total, String.eqb_spec.
  - unfold nunique, len. f_equal.
    rewrite (Permutation_length Hperm), <- (length_map fst).
    apply Permutation_length, NoDup_Permutation.
    + apply tally_keys_NoDup.
    + apply unique_NoDup.
    + intros k. rewrite unique_In. split.
      * intros Hk. apply in_map_iff in Hk. destruct Hk as ([k' n] & <- & Hk).
        apply tally_In in Hk. tauto.
      * intros Hk. apply in_map_iff. exists (k, occurrences k (dropna s)).
        split; [reflexivity |]. apply tally_In. tauto.
Qed.

Lemma value_counts_positive (s : list (option string)) (k : string) (n : Z) :
  In (k, n) (value_counts s) -> 0 < n.
Proof.
  intros H. apply value_counts_spec in H. destruct H as [Hk ->].
  apply occurrences_pos, dropna_In, Hk.
Qed.

(** The first [n] entries of a column's [value_counts]. *)
Lemma head_of_value_counts (n : nat) (s : list (option string)) :
  let top := firstn n (value_counts s) in
  len top = Z.min (Z.of_nat n) (nunique s) /\
  NoDup (map fst top) /\
  StronglySorted (fun a b => snd b <= snd a) top /\
  (forall k c, In (k, c) top ->
               In (Some k) s /\ c = occurrences k (dropna s) /\ 0 < c) /\
  (forall k c k', In (k, c) top -> ~ In k' (map fst top) ->
                  occurrences k' (dropna s) <= c) /\
  total_count top <= len (dropna s).
Proof.
  intros top.
  destruct (value_counts_spec s) as (Hnd & Hsorted & Hmem & Hsum & Hlen).
  pose proof (firstn_skipn n (value_counts s)) as Hsplit. fold top in Hsplit.
  rewrite <- Hsplit in Hnd, Hsorted.
  apply StronglySorted_app_inv in Hsorted. destruct Hsorted as [Hs1 Hcross].
  assert (Hsub : forall x, In x top -> In x (value_counts s)).
  { intros x Hx. rewrite <- Hsplit. apply in_or_app. left. exact Hx. }
  split; [| split; [| split; [| split; [| split]]]].
  - unfold top, len. rewrite length_firstn. unfold len in Hlen. lia.
  - rewrite map_app in Hnd. apply NoDup_app_remove_r in Hnd. exact Hnd.
  - exact Hs1.
  - intros k c Hkc. pose proof (Hsub _ Hkc) as Hvc.
    pose proof (value_counts_positive _ _ _ Hvc).
    apply Hmem in Hvc. tauto.
  - intros k c k' Hkc Hout.
    pose proof (value_counts_positive _ _ _ (Hsub _ Hkc)) as Hpos.
    destruct (in_dec string_dec k' (dropna s)) as [Hin | Hnot].
    + assert (Hvc : In (k', occurrences k' (dropna s)) (value_counts s)).
      { apply Hmem. split; [apply dropna_In, Hin | reflexivity]. }
      rewrite <- Hsplit in Hvc. apply in_app_or in Hvc.
      destruct Hvc as [Hvc | Hvc].
      * exfalso. apply Hout. apply in_map_iff.
        exists (k', occurrences k' (dropna s)). split; [reflexivity | exact Hvc].
      * exact (Hcross _ _ Hkc Hvc).
    + pose proof (occurrences_pos k' (dropna s)) as Hp.
      pose proof (occurrences_nonneg k' (dropna s)).
      destruct (Z.eq_dec (occurrences k' (dropna s)) 0); [lia |].
      exfalso. apply Hnot, Hp. lia.
  - rewrite <- Hsum. apply total_count_firstn.
    intros x Hx. destruct x as [k c].
    pose proof (value_counts_positive _ _ _ Hx). simpl. lia.
Qed.

(** X10.  The two top-ten charts.  Each lists at most ten values, exactly
    [min(10, distinct values)], no value twice, in descending order of
    their counts; each count is the number of filtered rows that carry the
    value, and it is positive; no value that was left out occurs more often
    than a listed one.  The first crime type listed is the top crime type
    of the key figures. *)
Theorem top_ten_lists_are_ranked (filtered : list Row) :
  (len (crime_types filtered)
   = Z.min 10 (nunique (map PRIMARY_DESCRIPTION filtered)) /\
   len (location_types filtered) = Z.min 10 (unique_locations filtered)) /\
  (NoDup (map fst (crime_types filtered)) /\
   NoDup (map fst (location_types filtered))) /\
  (StronglySorted (fun a b => snd b <= snd a) (crime_types filtered) /\
   StronglySorted (fun a b => snd b <= snd a) (location_types filtered)) /\
  (forall k c,
     (In (k, c) (crime_types filtered) ->
      c = description_count k filtered /\ 0 < c) /\
     (In (k, c) (location_types filtered) ->
      c = len (filter (fun r => cell_eqb (LOCATION_DESCRIPTION r) k) filtered)
      /\ 0 < c)) /\
  (forall k c k',
     (In (k, c) (crime_types filtered) ->
      ~ In k' (map fst (crime_types filtered)) ->
      description_count k' filtered <= c) /\
     (In (k, c) (location_types filtered) ->
      ~ In k' (map fst (location_types filtered)) ->
      len (filter (fun r => cell_eqb (LOCATION_DESCRIPTION r) k') filtered)
      <= c)) /\
  (forall top, most_common_crime filtered = Ok top ->
               filtered <> [] ->
               exists c rest, crime_types filtered = (top, c) :: rest).
Proof.
  destruct (head_of_value_counts 10 (map PRIMARY_DESCRIPTION filtered))
    as (Hlen1 & Hnd1 & Hs1 & Hin1 & Hout1 & _).
  destruct (head_of_value_counts 10 (map LOCATION_DESCRIPTION filtered))
    as (Hlen2 & Hnd2 & Hs2 & Hin2 & Hout2 & _).
  fold (crime_types filtered) in Hlen1, Hnd1, Hs1, Hin1, Hout1.
  fold (location_types filtered) in Hlen2, Hnd2, Hs2, Hin2, Hout2.
  split; [split; [exact Hlen1 | exact Hlen2] |].
  split; [split; assumption |]. split; [split; assumption |].
  split; [| split].
  - intros k c. split; intros H.
    + apply Hin1 in H. rewrite <- description_count_occurrences. tauto.
    + apply Hin2 in H. rewrite <- occurrences_column. tauto.
  - intros k c k'. split; intros H Hout.
    + rewrite <- description_count_occurrences. exact (Hout1 _ _ _ H Hout).
    + rewrite <- occurrences_column. exact (Hout2 _ _ _ H Hout).
  - intros top Htop Hne. unfold most_common_crime in Htop.
    assert (Hpos : (total_crimes filtered >? 0) = true).
    { apply Z.gtb_lt. pose proof (len_nonneg filtered).
      pose proof (len_nil_iff filtered). unfold total_crimes.
      destruct (Z.eq_dec (len filtered) 0); [tauto | lia]. }
    rewrite Hpos in Htop. unfold crime_types.
    destruct (value_counts (map PRIMARY_DESCRIPTION filtered))
      as [|[k c] rest]; [discriminate Htop |].
    simpl in Htop. injection Htop as ->.
    exists c, (firstn 9 rest). reflexivity.
Qed.

(** ** Arrests by crime type *)

Lemma collect_all_ok {A B : Type} (f : A -> result B) (l : list A) :
  (forall a, In a l -> exists b, f a = Ok b) ->
  exists bs,
    collect f l = Ok bs /\
    Forall2 (fun a b => f a = Ok b) l bs.
Proof.
  induction l as [|a l IH]; intros Hok; simpl.
  - exists []. split; [reflexivity | constructor].
  - destruct (Hok a (or_introl eq_refl)) as [b Hb].
    destruct IH as (bs & Hbs & Hall).
    { intros a' Ha'. apply Hok. right. exact Ha'. }
    exists (b :: bs). rewrite Hb, Hbs. simpl.
    split; [reflexivity | constructor; assumption].
Qed.

Lemma arrest_entry_of_present (filtered : list Row) (crime : string) :
  0 < description_count crime filtered ->
  exists e,
    arrest_entry filtered crime = Ok e /\
    entry_crime e = crime /\
    entry_total e = description_count crime filtered /\
    0 <= entry_arrested e <= entry_total e /\
    entry_rate e
    = (inject_Z (entry_arrested e) / inject_Z (entry_total e) * 100)%Q /\
    (0 <= entry_rate e /\ entry_rate e <= 100)%Q.
Proof.
  intros Hpos. unfold arrest_entry. fold (description_count crime filtered).
  set (crime_df :=
         filter (fun r => cell_eqb (PRIMARY_DESCRIPTION r) crime) filtered).
  assert (Harr : 0 <= len (filter (fun r => cell_eqb (ARREST r) "Y") crime_df)
                 <= description_count crime filtered).
  { split; [apply len_nonneg |]. unfold description_count. fold crime_df.
    apply len_filter_le. }
  rewrite rate_positive_total by exact Hpos. simpl.
  eexists. split; [reflexivity |]. simpl.
  split; [reflexivity |]. split; [reflexivity |]. split; [exact Harr |].
  split; [reflexivity |].
  apply quotient_percent_bounds; assumption.
Qed.

(** X11.  The arrest analysis never fails.  It has one entry for each of the (at
    most eight) most frequent crime types, in their order; the total of an
    entry is the number of filtered rows of that type and is positive, so
    the zero guard of its rate never applies; its arrests are the rows of
    that type with ARREST = 'Y', at most the total; its rate is
    arrests / total * 100 and lies between 0 and 100. *)
Theorem arrest_analysis_covers_top_crimes (filtered : list Row) :
  exists entries,
    arrest_analysis filtered = Ok entries /\
    map entry_crime entries = top_crimes filtered /\
    (List.length entries <= 8)%nat /\
    NoDup (map entry_crime entries) /\
    forall e, In e entries ->
      entry_total e = description_count (entry_crime e) filtered /\
      0 < entry_total e /\
      entry_arrested e
      = len (filter (fun r => cell_eqb (ARREST r) "Y")
               (filter (fun r => cell_eqb (PRIMARY_DESCRIPTION r)
                                   (entry_crime e)) filtered)) /\
      0 <= entry_arrested e <= entry_total e /\
      entry_rate e
      = (inject_Z (entry_arrested e) / inject_Z (entry_total e) * 100)%Q /\
      (0 <= entry_rate e /\ entry_rate e <= 100)%Q.
Proof.
  destruct (head_of_value_counts 8 (map PRIMARY_DESCRIPTION filtered))
    as (Hlen & Hnd & _ & Hin & _ & _).
  assert (Hpresent : forall crime, In crime (top_crimes filtered) ->
                                   0 < description_count crime filtered).
  { intros crime Hc. unfold top_crimes in Hc. apply in_map_iff in Hc.
    destruct Hc as ([k c] & <- & Hkc). apply Hin in Hkc. simpl.
    rewrite <- description_count_occurrences. lia. }
  destruct (collect_all_ok (arrest_entry filtered) (top_crimes filtered))
    as (entries & Hcollect & Hall).
  { intros crime Hc.
    destruct (arrest_entry_of_present filtered crime (Hpresent crime Hc))
      as (e & He & _).
    exists e. exact He. }
  assert (Hnames : map entry_crime entries = top_crimes filtered).
  { clear Hcollect Hpresent.
    induction Hall as [|crime e l es He _ IH]; [reflexivity |].
    simpl. rewrite IH. f_equal.
    unfold arrest_entry in He.
    destruct (rate _ _); simpl in He; [| discriminate He].
    injection He as <-. reflexivity. }
  exists entries. split; [exact Hcollect |]. split; [exact Hnames |].
  split; [| split].
  - rewrite <- (length_map entry_crime), Hnames. unfold top_crimes.
    rewrite length_map, length_firstn. lia.
  - rewrite Hnames. exact Hnd.
  - intros e He.
    assert (Hfrom : exists crime, In crime (top_crimes filtered) /\
                                  arrest_entry filtered crime = Ok e).
    { clear Hcollect Hnames Hpresent.
      induction Hall as [|crime e' l es He' _ IH]; [contradiction |].
      destruct He as [-> | He].
      - exists crime. split; [left; reflexivity | exact He'].
      - destruct (IH He) as (c & Hc & Hce).
        exists c. split; [right; exact Hc | exact Hce]. }
    destruct Hfrom as (crime & Hc & Hce).
    destruct (arrest_entry_of_present filtered crime (Hpresent crime Hc))
      as (e' & He' & Hname & Htotal & Harr & Hrate & Hbounds).
    assert (e' = e) by congruence. subst e'.
    rewrite Hname. split; [exact Htotal |].
    split; [rewrite Htotal; apply Hpresent, Hc |].
    split; [| tauto].
    unfold arrest_entry in Hce.
    destruct (rate _ _); simpl in Hce; [| discriminate Hce].
    injection Hce as <-. reflexivity.
Qed.

(** ** Location types *)

(** X12.  The number of location types counts each distinct, non-missing location
    once: it lies between 0 and the total, it is 0 exactly when every
    location cell of the period is missing, and it is the number of
    entries of the location [value_counts], whose counts add up to the
    number of rows with a location. *)
Theorem unique_locations_counts_distinct_values (filtered : list Row) :
  0 <= unique_locations filtered <= total_crimes filtered /\
  (unique_locations filtered = 0 <->
   forall r, In r filtered -> LOCATION_DESCRIPTION r = None) /\
  unique_locations filtered
  = len (value_counts (map LOCATION_DESCRIPTION filtered)) /\
  total_count (value_counts (map LOCATION_DESCRIPTION filtered))
  = len (filter (fun r => notna (LOCATION_DESCRIPTION r)) filtered) /\
  exists values,
    NoDup values /\ unique_locations filtered = len values /\
    forall v, In v values <->
              exists r, In r filtered /\ LOCATION_DESCRIPTION r = Some v.
Proof.
  destruct (value_counts_spec (map LOCATION_DESCRIPTION filtered))
    as (Hnd & _ & Hmem & Hsum & Hlen).
  set (cells := map LOCATION_DESCRIPTION filtered) in *.
  assert (Hvalues : forall v, In v (unique (dropna cells)) <->
                    exists r, In r filtered /\ LOCATION_DESCRIPTION r = Some v).
  { intros v. rewrite unique_In, dropna_In. unfold cells.
    rewrite in_map_iff. split; intros (r & H1 & H2); exists r; tauto. }
  assert (Hle : len (unique (dropna cells)) <= len (dropna cells)).
  { unfold len. apply inj_le. apply NoDup_incl_length.
    - apply unique_NoDup.
    - intros v Hv. exact (proj1 (unique_In _ _) Hv). }
  pose proof (dropna_length_le cells) as Hle2.
  assert (Hcells : len cells = total_crimes filtered).
  { unfold cells, total_crimes, len. rewrite length_map. reflexivity. }
  split; [| split; [| split; [| split]]].
  - unfold unique_locations, nunique. fold cells.
    split; [apply len_nonneg | lia].
  - unfold unique_locations, nunique. fold cells. rewrite len_nil_iff. split.
    + intros Hnil r Hr.
      destruct (LOCATION_DESCRIPTION r) as [v|] eqn:Hv; [| reflexivity].
      exfalso. assert (Hin : In v (unique (dropna cells))).
      { apply Hvalues. exists r. tauto. }
      rewrite Hnil in Hin. exact Hin.
    + intros Hnone.
      destruct (unique (dropna cells)) as [|v l] eqn:Hu; [reflexivity |].
      exfalso.
      destruct (proj1 (Hvalues v) (or_introl eq_refl)) as (r & Hr & Hv).
      rewrite (Hnone r Hr) in Hv. discriminate Hv.
  - symmetry. exact Hlen.
  - rewrite Hsum. unfold cells. clear.
    induction filtered as [|r f IH]; simpl; [reflexivity |].
    destruct (LOCATION_DESCRIPTION r); simpl; rewrite ?len_cons, IH;
      reflexivity.
  - exists (unique (dropna cells)).
    split; [apply unique_NoDup |]. split; [reflexivity | exact Hvalues].
Qed.

(** ** Column names, content *)

Lemma visible_lstrip (s : string) : visible (lstrip s) = visible s.
Proof.
  induction s as [|c t IH]; simpl; [reflexivity |].
  destruct (isspace c) eqn:Hc; simpl; [exact IH | now rewrite Hc].
Qed.

Lemma visible_rstrip (s : string) : visible (rstrip s) = visible s.
Proof.
  induction s as [|c t IH]; simpl; [reflexivity |].
  destruct (rstrip t) as [|c' t'] eqn:Ht.
  - simpl in IH. rewrite <- IH.
    destruct (isspace c) eqn:Hc; simpl; rewrite ?Hc; reflexivity.
  - simpl. rewrite <- IH. reflexivity.
Qed.

Lemma visible_collapse_from (s : string) (flag : bool) :
  visible (collapse_from flag s) = visible s.
Proof.
  revert flag. induction s as [|c t IH]; intros flag; simpl; [reflexivity |].
  destruct (isspace c) eqn:Hc.
  - destruct flag; simpl; apply IH.
  - simpl. rewrite Hc, IH. reflexivity.
Qed.

Lemma visible_empty_lstrip (s : string) :
  visible s = EmptyString -> lstrip s = EmptyString.
Proof.
  induction s as [|c t IH]; simpl; [reflexivity |].
  destruct (isspace c); [exact IH | discriminate].
Qed.

(** X15.  Cleaning a column name only touches whitespace: the other characters
    stay, in their order; a name of whitespace alone becomes the empty
    name, and only such a name does. *)
Theorem clean_column_keeps_visible_characters (name : string) :
  visible (clean_column name) = visible name /\
  (clean_column name = EmptyString <-> visible name = EmptyString) /\
  (String.length (visible name) <= String.length (clean_column name)
   <= String.length name)%nat.
Proof.
  assert (Hvis : visible (clean_column name) = visible name).
  { unfold clean_column, strip, collapse.
    rewrite visible_collapse_from, visible_rstrip, visible_lstrip.
    reflexivity. }
  assert (Hlen_vis : forall s, (String.length (visible s) <= String.length s)%nat).
  { induction s as [|c t IH]; simpl; [lia |].
    destruct (isspace c); simpl; lia. }
  assert (Hl : forall s, (String.length (lstrip s) <= String.length s)%nat).
  { induction s as [|c t IH]; simpl; [lia |].
    destruct (isspace c); simpl; lia. }
  assert (Hr : forall s, (String.length (rstrip s) <= String.length s)%nat).
  { induction s as [|c t IH]; simpl; [lia |].
    destruct (rstrip t); [destruct (isspace c) |]; simpl in *; lia. }
  assert (Hc : forall s flag,
             (String.length (collapse_from flag s) <= String.length s)%nat).
  { induction s as [|c t IH]; intros flag; simpl; [lia |].
    pose proof (IH true). pose proof (IH false).
    destruct (isspace c); [destruct flag |]; simpl; lia. }
  split; [exact Hvis |]. split.
  - split.
    + intros Hempty. rewrite <- Hvis, Hempty. reflexivity.
    + intros Hempty. unfold clean_column, strip.
      rewrite (visible_empty_lstrip _ Hempty). reflexivity.
  - split.
    + rewrite <- Hvis. apply Hlen_vis.
    + unfold clean_column, strip, collapse.
      eapply Nat.le_trans; [apply Hc |].
      eapply Nat.le_trans; [apply Hr | apply Hl].
Qed.

(** ** Loading, errors and derived columns *)

(** X16.  What [load_data] raises tells what is wrong with the header: a
    [KeyError] naming the occurrence column when no header cleans to it, a
    [ValueError] when several do; with exactly one such header a frame is
    returned, whatever the rows hold. *)
Theorem load_reports_the_date_column
  (to_datetime : parser) (raw : RawFrame) :
  let found := count_name date_col (map clean_column (raw_columns raw)) in
  (found = 0%nat <->
   load_data to_datetime (Ok raw) = Raise (KeyError "DATE OF OCCURRENCE")) /\
  ((2 <= found)%nat <-> load_data to_datetime (Ok raw) = Raise ValueError) /\
  (found = 1%nat <-> exists df, load_data to_datetime (Ok raw) = Ok df) /\
  (found = 0%nat <->
   forall header, In header (raw_columns raw) ->
                  clean_column header <> date_col).
Proof.
  intros found.
  assert (Hload : load_data to_datetime (Ok raw)
                  = match found with
                    | O => Raise (KeyError date_col)
                    | S O => load_data to_datetime (Ok raw)
                    | _ => Raise ValueError
                    end).
  { unfold load_data, getitem_series. simpl. fold found.
    destruct found as [|[|n]]; reflexivity. }
  split; [| split; [| split]].
  - split.
    + intros H0. rewrite Hload, H0. reflexivity.
    + intros Hr. destruct found as [|[|n]] eqn:Hf; [reflexivity | |].
      * assert (H1 : count_name date_col (map clean_column (raw_columns raw))
                     = 1%nat) by exact Hf.
        rewrite (load_data_unique_date to_datetime raw H1) in Hr.
        discriminate Hr.
      * rewrite Hload in Hr. discriminate Hr.
  - split.
    + intros H2. rewrite Hload.
      destruct found as [|[|n]]; [lia | lia | reflexivity].
    + intros Hr. destruct found as [|[|n]] eqn:Hf; [| | lia].
      * rewrite Hload in Hr. discriminate Hr.
      * assert (H1 : count_name date_col (map clean_column (raw_columns raw))
                     = 1%nat) by exact Hf.
        rewrite (load_data_unique_date to_datetime raw H1) in Hr.
        discriminate Hr.
  - split.
    + intros H1. eexists. apply load_data_unique_date. exact H1.
    + intros [df Hdf]. destruct found as [|[|n]] eqn:Hf; [| reflexivity |];
        rewrite Hload in Hdf; discriminate Hdf.
  - unfold found, count_name. rewrite length_zero_iff_nil. split.
    + intros Hnil header Hh Heq.
      assert (Hin : In (clean_column header)
                      (filter (String.eqb date_col)
                         (map clean_column (raw_columns raw)))).
      { apply filter_In. split; [apply in_map, Hh |].
        rewrite Heq. apply String.eqb_refl. }
      rewrite Hnil in Hin. exact Hin.
    + intros Hnone.
      destruct (filter (String.eqb date_col)
                  (map clean_column (raw_columns raw))) as [|c l] eqn:Hf;
        [reflexivity |].
      exfalso.
      assert (Hin : In c (filter (String.eqb date_col)
                            (map clean_column (raw_columns raw))))
        by (rewrite Hf; left; reflexivity).
      apply filter_In in Hin. destruct Hin as [Hin Heq].
      apply String.eqb_eq in Heq. apply in_map_iff in Hin.
      destruct Hin as (header & Hc & Hh).
      apply (Hnone header Hh). congruence.
Qed.

Lemma load_data_Ok_inv (to_datetime : parser) (raw : RawFrame)
  (df : DataFrame) :
  load_data to_datetime (Ok raw) = Ok df ->
  df = {| columns :=
            fold_left setitem ["date"; "hour"; "day_of_week"; "month"]
              (map clean_column (raw_columns raw));
          rows :=
            map derive
              (dropna_date
                 (combine (raw_rows raw)
                    (to_datetime
                       (map raw_DATE_OF_OCCURRENCE (raw_rows raw))))) |}.
Proof.
  unfold load_data. simpl.
  destruct (getitem_series _ _); simpl; [| discriminate].
  intros H. injection H as <-. reflexivity.
Qed.

Lemma existsb_count_name (key : string) (cols : list string) :
  existsb (String.eqb key) cols = true <-> (1 <= count_name key cols)%nat.
Proof.
  unfold count_name. induction cols as [|c cols IH]; simpl.
  - split; [discriminate | lia].
  - destruct (String.eqb key c); simpl; [split; [lia | reflexivity] |].
    exact IH.
Qed.

Lemma count_name_setitem (cols : list string) (name key : string) :
  count_name name (setitem cols key)
  = if String.eqb name key then Nat.max 1 (count_name name cols)
    else count_name name cols.
Proof.
  unfold setitem.
  destruct (existsb (String.eqb key) cols) eqn:Hex.
  - destruct (String.eqb_spec name key) as [-> | Hne]; [| reflexivity].
    apply existsb_count_name in Hex. lia.
  - rewrite count_name_app.
    destruct (String.eqb_spec name key) as [-> | Hne].
    + assert (count_name key cols = 0%nat).
      { destruct (count_name key cols) eqn:Hc; [reflexivity |].
        assert (Ht : existsb (String.eqb key) cols = true)
          by (apply existsb_count_name; lia).
        congruence. }
      assert (Hone : count_name key [key] = 1%nat).
      { unfold count_name. simpl. rewrite String.eqb_refl. reflexivity. }
      rewrite Hone. lia.
    + assert (Hnone : count_name name [key] = 0%nat).
      { unfold count_name. simpl.
        destruct (String.eqb_spec name key); [congruence | reflexivity]. }
      rewrite Hnone. lia.
Qed.

Lemma derive_ok (rt : RawRow * Timestamp) : derived_ok (derive rt).
Proof. destruct rt as [r t]. repeat split. Qed.

Lemma loaded_rows_derived_ok (to_datetime : parser)
  (read_csv : result RawFrame) (df : DataFrame) :
  load_data to_datetime read_csv = Ok df -> Forall derived_ok (rows df).
Proof.
  destruct read_csv as [raw | e]; [| discriminate].
  intros H. apply load_data_Ok_inv in H. subst df. simpl.
  apply Forall_forall. intros r Hr. apply in_map_iff in Hr.
  destruct Hr as (rt & <- & _). apply derive_ok.
Qed.

(** X17.  After a successful load each of the four derived columns is there:
    added at the end when the file had no column of that name, written over
    the file's column (not added beside it) when it had one; the other
    columns are as the file had them.  Every row's derived cells are the
    ones its parsed timestamp gives. *)
Theorem derived_columns_are_set_in_place
  (to_datetime : parser) (raw : RawFrame) (df : DataFrame)
  (Hload : load_data to_datetime (Ok raw) = Ok df) :
  let cleaned := map clean_column (raw_columns raw) in
  (forall name,
     In name ["date"; "hour"; "day_of_week"; "month"] ->
     In name (columns df) /\
     count_name name (columns df) = Nat.max 1 (count_name name cleaned)) /\
  (forall name,
     ~ In name ["date"; "hour"; "day_of_week"; "month"] ->
     count_name name (columns df) = count_name name cleaned) /\
  (List.length cleaned <= List.length (columns df)
   <= List.length cleaned + 4)%nat /\
  Forall derived_ok (rows df).
Proof.
  intros cleaned.
  pose proof (loaded_rows_derived_ok _ _ _ Hload) as Hrows.
  apply load_data_Ok_inv in Hload. subst df. cbn [columns rows] in *.
  fold cleaned.
  assert (Hcount : forall name,
             count_name name
               (fold_left setitem ["date"; "hour"; "day_of_week"; "month"]
                  cleaned)
             = if existsb (String.eqb name)
                    ["date"; "hour"; "day_of_week"; "month"]
               then Nat.max 1 (count_name name cleaned)
               else count_name name cleaned).
  { intros name. cbn [fold_left existsb]. rewrite !count_name_setitem.
    destruct (String.eqb name "date"), (String.eqb name "hour"),
      (String.eqb name "day_of_week"), (String.eqb name "month");
      cbn [orb]; lia. }
  split; [| split; [| split; [| exact Hrows]]].
  - intros name Hname.
    assert (Hc : count_name name
                   (fold_left setitem ["date"; "hour"; "day_of_week"; "month"]
                      cleaned)
                 = Nat.max 1 (count_name name cleaned)).
    { rewrite Hcount.
      rewrite (proj2 (existsb_eqb_In name _) Hname). reflexivity. }
    split; [| exact Hc].
    apply existsb_eqb_In, existsb_count_name. rewrite Hc. lia.
  - intros name Hname. rewrite Hcount.
    destruct (existsb (String.eqb name)
                ["date"; "hour"; "day_of_week"; "month"]) eqn:Hex;
      [| reflexivity].
    exfalso. apply Hname, existsb_eqb_In, Hex.
  - cbn [fold_left]. unfold setitem.
    repeat match goal with
           | |- context [if ?b then _ else _] => destruct b
           end;
      rewrite ?length_app; simpl; lia.
Qed.

Lemma derived_columns_are_set_in_place_witness :
  exists df,
    load_data sample_parser (Ok sample_csv) = Ok df /\
    let cleaned := map clean_column (raw_columns sample_csv) in
    (forall name,
       In name ["date"; "hour"; "day_of_week"; "month"] ->
       In name (columns df) /\
       count_name name (columns df) = Nat.max 1 (count_name name cleaned)) /\
    (forall name,
       ~ In name ["date"; "hour"; "day_of_week"; "month"] ->
       count_name name (columns df) = count_name name cleaned) /\
    (List.length cleaned <= List.length (columns df)
     <= List.length cleaned + 4)%nat /\
    Forall derived_ok (rows df).
Proof.
  eexists. split; [vm_compute; reflexivity |].
  apply (derived_columns_are_set_in_place sample_parser sample_csv).
  vm_compute. reflexivity.
Defined.

(** ** Weekly bars *)

Lemma day_name_of_offset (i j : Z) :
  0 <= i <= 6 -> 0 <= j <= 6 ->
  (nth (Z.to_nat i) day_order "" = nth (Z.to_nat j) day_order "" <-> i = j).
Proof.
  intros Hi Hj. split; [| intros ->; reflexivity].
  intros Heq.
  assert (Hn : Z.to_nat i = Z.to_nat j).
  { apply (NoDup_nth day_order "");
      [exact day_order_NoDup | simpl; lia | simpl; lia | exact Heq]. }
  lia.
Qed.

Lemma weekday_in_week (ws d : Calendar.date) :
  weekday ws = 0 -> ws <= d <= ws + 6 -> weekday d = d - ws.
Proof.
  unfold weekday. intros Hmon Hd. Z.to_euclidean_division_equations. lia.
Qed.

Lemma day_data_total (filtered : list Row) :
  total_count (day_data filtered) = total_crimes filtered.
Proof.
  unfold day_data, sort_values, groupby_size.
  rewrite (total_count_perm _ _ (sort_by_perm _ _)).
  set (grouped := sort_by key_leb (tally (map day_of_week filtered))).
  assert (Hmap : forall l : list (string * Z),
             total_count
               (map (fun kc => (categorical day_order (fst kc), snd kc)) l)
             = total_count l).
  { induction l as [|x l IH]; [reflexivity |].
    simpl map. rewrite !total_count_cons, IH. reflexivity. }
  rewrite Hmap. unfold grouped.
  rewrite (total_count_perm _ _ (sort_by_perm _ _)).
  change (tally (map day_of_week filtered))
    with (tally_by String.eqb (map day_of_week filtered)).
  rewrite (tally_by_total String.eqb String.eqb_spec).
  unfold total_crimes, len. rewrite length_map. reflexivity.
Qed.

(** X8.  In a weekly view of loaded rows the bar of a weekday shows the total of
    the daily view of the matching date: the k-th day name counts the rows
    dated week start + k, and it has a bar exactly when that day has rows.
    The bars add up to the weekly total. *)
Theorem weekly_bars_are_daily_totals
  (df : list Row) (ws : Calendar.date) (k : Z)
  (Hrows : Forall derived_ok df)
  (Hmonday : weekday ws = 0) (Hk : 0 <= k <= 6) :
  let filtered := filter_range df ws (ws + 6) in
  let day := nth (Z.to_nat k) day_order "" in
  occurrences day (map day_of_week filtered)
  = total_crimes (filter_day df (ws + k)) /\
  (forall n, In (Some day, n) (day_data filtered) <->
             n = total_crimes (filter_day df (ws + k)) /\ 0 < n) /\
  total_count (day_data filtered) = total_crimes filtered.
Proof.
  intros filtered day.
  assert (Hname : forall r, In r df -> ws <= date r <= ws + 6 ->
             day_of_week r = nth (Z.to_nat (date r - ws)) day_order "").
  { intros r Hr Hd. rewrite Forall_forall in Hrows.
    destruct (Hrows r Hr) as (Hdate & _ & Hday & _).
    rewrite Hday. unfold dt_day_name. rewrite <- Hdate.
    rewrite (weekday_in_week ws (date r) Hmonday Hd). reflexivity. }
  assert (Hocc : occurrences day (map day_of_week filtered)
                 = total_crimes (filter_day df (ws + k))).
  { unfold occurrences, total_crimes, filtered, filter_range, filter_day.
    clear Hrows. induction df as [|r df IH]; [reflexivity |].
    assert (IH' := IH (fun r' Hr' => Hname r' (or_intror Hr'))).
    cbn [filter map].
    destruct (Z.geb_spec (date r) ws) as [Hge | Hlt];
      destruct (Z.leb_spec (date r) (ws + 6)) as [Hle | Hgt];
      cbn [andb map filter];
      try (destruct (Z.eqb_spec (date r) (ws + k)); [lia | exact IH']).
    rewrite (Hname r (or_introl eq_refl)) by lia.
    destruct (Z.eqb_spec (date r) (ws + k)) as [Heq | Hne].
    - replace (date r - ws) with k by lia. fold day.
      rewrite String.eqb_refl. rewrite !len_cons, IH'. reflexivity.
    - destruct (String.eqb_spec day
                  (nth (Z.to_nat (date r - ws)) day_order "")) as [Hd | Hd];
        [| exact IH'].
      exfalso. apply Hne. unfold day in Hd.
      apply day_name_of_offset in Hd; lia. }
  assert (Hdays : forall d, In d (map day_of_week filtered) ->
                            In d day_order).
  { intros d Hd. apply in_map_iff in Hd. destruct Hd as (r & <- & Hr).
    apply filter_range_In in Hr. destruct Hr as [Hr _].
    rewrite Forall_forall in Hrows.
    destruct (Hrows r Hr) as (_ & _ & -> & _). apply dt_day_name_In. }
  split; [exact Hocc |]. split; [| apply day_data_total].
  intros n. unfold day_data.
  rewrite (day_data_closed_form (map day_of_week filtered) Hdays).
  rewrite in_map_iff. split.
  - intros (d & Heq & Hd). injection Heq as -> <-.
    apply filter_In in Hd. destruct Hd as [_ Hobs].
    apply existsb_eqb_In, occurrences_pos in Hobs. fold day in Hobs |- *.
    rewrite <- Hocc. split; [reflexivity | exact Hobs].
  - intros [-> Hpos]. exists day. rewrite <- Hocc. split; [reflexivity |].
    apply filter_In. split.
    + unfold day. apply nth_In. simpl. lia.
    + apply existsb_eqb_In, occurrences_pos. rewrite Hocc. exact Hpos.
Qed.

Lemma weekly_bars_are_daily_totals_witness :
  let filtered :=
    filter_range sample_rows (ymd2ord 2024 3 11) (ymd2ord 2024 3 11 + 6) in
  let day := nth (Z.to_nat 2) day_order "" in
  occurrences day (map day_of_week filtered)
  = total_crimes (filter_day sample_rows (ymd2ord 2024 3 11 + 2)) /\
  (forall n, In (Some day, n) (day_data filtered) <->
             n = total_crimes (filter_day sample_rows (ymd2ord 2024 3 11 + 2))
             /\ 0 < n) /\
  total_count (day_data filtered) = total_crimes filtered.
Proof.
  apply (weekly_bars_are_daily_totals sample_rows (ymd2ord 2024 3 11) 2).
  - unfold sample_rows.
    destruct (load_data sample_parser (Ok sample_csv)) as [df | e] eqn:Hload.
    + exact (loaded_rows_derived_ok _ _ _ Hload).
    + constructor.
  - vm_compute. reflexivity.
  - lia.
Defined.

(** ** Month tokens *)

Lemma digit_injective (a b : Z) :
  digit a = digit b -> a mod 10 = b mod 10.
Proof.
  unfold digit. intros H. apply (f_equal N_of_ascii) in H.
  pose proof (Z.mod_pos_bound a 10). pose proof (Z.mod_pos_bound b 10).
  rewrite !N_ascii_embedding in H by lia. lia.
Qed.

Lemma pad2_injective (a b : Z) :
  0 <= a < 100 -> 0 <= b < 100 -> pad2 a = pad2 b -> a = b.
Proof.
  intros Ha Hb H. unfold pad2 in H. injection H as Hd1 Hd2.
  apply digit_injective in Hd1, Hd2.
  Z.to_euclidean_division_equations. lia.
Qed.

Lemma pad4_injective (a b : Z) :
  0 <= a < 10000 -> 0 <= b < 10000 -> pad4 a = pad4 b -> a = b.
Proof.
  intros Ha Hb H. unfold pad4, pad2 in H. injection H as Hd1 Hd2 Hd3 Hd4.
  apply digit_injective in Hd1, Hd2, Hd3, Hd4.
  Z.to_euclidean_division_equations. lia.
Qed.

Lemma dt_month_injective (t1 t2 : Timestamp) :
  valid_stamp t1 -> valid_stamp t2 ->
  (dt_month t1 = dt_month t2 <->
   ts_year t1 = ts_year t2 /\ ts_month t1 = ts_month t2).
Proof.
  intros (Hy1 & Hm1 & _) (Hy2 & Hm2 & _). split.
  - unfold dt_month. intros H.
    assert (H4 : pad4 (ts_year t1) = pad4 (ts_year t2) /\
                 pad2 (ts_month t1) = pad2 (ts_month t2)).
    { unfold pad4, pad2 in *. simpl in H.
      injection H as E1 E2 E3 E4 E5 E6. rewrite E1, E2, E3, E4, E5, E6.
      split; reflexivity. }
    destruct H4 as [H4 H2]. split.
    + apply pad4_injective; [lia | lia | exact H4].
    + apply pad2_injective; [lia | lia | exact H2].
  - intros [Hy Hm]. unfold dt_month. rewrite Hy, Hm. reflexivity.
Qed.

(** X18.  On loaded rows with timestamps in Python's ranges, a month token stands
    for one calendar month: the monthly view of the token of a timestamp
    holds exactly the rows that share its year and its month, and rows of
    the same month of another year are left out. *)
Theorem month_token_selects_one_calendar_month
  (df : list Row) (t : Timestamp)
  (Hrows : Forall (fun r => derived_ok r /\
                            valid_stamp (DATE_OF_OCCURRENCE r)) df)
  (Ht : valid_stamp t) :
  String.length (dt_month t) = 7%nat /\
  forall r,
    In r (filter_month df (Some (dt_month t))) <->
    In r df /\
    ts_year (DATE_OF_OCCURRENCE r) = ts_year t /\
    ts_month (DATE_OF_OCCURRENCE r) = ts_month t.
Proof.
  split; [reflexivity |].
  intros r. rewrite filter_month_In. rewrite Forall_forall in Hrows.
  split.
  - intros [Hr Hm]. split; [exact Hr |].
    destruct (Hrows r Hr) as ((_ & _ & _ & Hmonth) & Hvalid).
    apply (dt_month_injective _ _ Hvalid Ht). congruence.
  - intros (Hr & Hy & Hm). split; [exact Hr |].
    destruct (Hrows r Hr) as ((_ & _ & _ & Hmonth) & Hvalid).
    rewrite Hmonth. f_equal. symmetry.
    apply (dt_month_injective _ _ Hvalid Ht). tauto.
Qed.

Lemma sample_rows_valid :
  Forall (fun r => derived_ok r /\ valid_stamp (DATE_OF_OCCURRENCE r))
    sample_rows.
Proof.
  assert (Hok : Forall derived_ok sample_rows).
  { unfold sample_rows.
    destruct (load_data sample_parser (Ok sample_csv)) as [df | e] eqn:Hload.
    - exact (loaded_rows_derived_ok _ _ _ Hload).
    - constructor. }
  assert (Hstamps : map DATE_OF_OCCURRENCE sample_rows
                    = [ mkTimestamp 2024 3 15 8 0 0;
                        mkTimestamp 2024 3 13 23 30 0;
                        mkTimestamp 2024 3 17 1 5 0 ])
    by (vm_compute; reflexivity).
  rewrite Forall_forall in *. intros r Hr. split; [apply Hok, Hr |].
  apply (in_map DATE_OF_OCCURRENCE) in Hr. rewrite Hstamps in Hr.
  destruct Hr as [<- | [<- | [<- | []]]]; unfold valid_stamp; simpl; lia.
Qed.

Lemma month_token_selects_one_calendar_month_witness :
  String.length (dt_month (mkTimestamp 2024 3 1 0 0 0)) = 7%nat /\
  forall r,
    In r (filter_month sample_rows
            (Some (dt_month (mkTimestamp 2024 3 1 0 0 0)))) <->
    In r sample_rows /\
    ts_year (DATE_OF_OCCURRENCE r) = ts_year (mkTimestamp 2024 3 1 0 0 0) /\
    ts_month (DATE_OF_OCCURRENCE r) = ts_month (mkTimestamp 2024 3 1 0 0 0).
Proof.
  apply (month_token_selects_one_calendar_month sample_rows
           (mkTimestamp 2024 3 1 0 0 0)).
  - exact sample_rows_valid.
  - vm_compute. repeat split; discriminate.
Defined.


(** ** Default selections *)

(** X19.  The month the select box shows first is the latest month of the
    dataset: on a dataset with rows it is a month of some row, no row has a
    later one, and the view it selects has rows; on a dataset without rows
    there is nothing to select and the view is empty. *)
Theorem default_month_is_the_latest (df : list Row) :
  (df = [] ->
   default_month df = None /\ filter_month df (default_month df) = []) /\
  (df <> [] ->
   exists latest,
     default_month df = Some latest /\
     In latest (map month df) /\
     (forall r, In r df -> str_ltb latest (month r) = false) /\
     filter_month df (default_month df) <> []).
Proof.
  split.
  - intros ->. split; reflexivity.
  - intros Hne. unfold default_month, selectbox.
    pose proof (months_descending df) as Hsorted.
    pose proof (months_In df) as Hin.
    destruct df as [|r0 df0]; [congruence |].
    set (df := r0 :: df0) in *.
    destruct (months df) as [|latest rest] eqn:Hm.
    + exfalso. apply (proj2 (Hin (month r0))). left. reflexivity.
    + exists latest. simpl.
      assert (Hlatest : In latest (map month df))
        by (apply Hin; left; reflexivity).
      split; [reflexivity |]. split; [exact Hlatest |]. split.
      * intros r Hr.
        assert (Hmr : In (month r) (latest :: rest))
          by (apply Hin, in_map, Hr).
        destruct Hmr as [<- | Hmr].
        -- pose proof (proj2 (String_as_OT.cmp_eq latest latest) eq_refl)
             as Hrefl.
           unfold String_as_OT.cmp in Hrefl. unfold str_ltb.
           rewrite Hrefl. reflexivity.
        -- apply StronglySorted_inv in Hsorted.
           destruct Hsorted as [_ Hall]. rewrite Forall_forall in Hall.
           apply Hall, Hmr.
      * apply in_map_iff in Hlatest. destruct Hlatest as (r & Hr1 & Hr2).
        intros Hnil.
        assert (Hfr : In r (filter_month df (Some latest))).
        { apply filter_month_In. split; [exact Hr2 | congruence]. }
        apply (in_nil (a := r)). rewrite <- Hnil. exact Hfr.
Qed.

Lemma fold_max_spec (l : list Z) (a : Z) :
  let m := fold_left Z.max l a in
  (m = a \/ In m l) /\ a <= m /\ forall x, In x l -> x <= m.
Proof.
  revert a. induction l as [|y l IH]; intros a; simpl.
  - split; [left; reflexivity |]. split; [lia | contradiction].
  - destruct (IH (Z.max a y)) as (Hm & Hle & Hall).
    split; [| split].
    + destruct Hm as [Hm | Hm]; [| right; right; exact Hm].
      rewrite Hm.
      destruct (Z.max_spec a y) as [[_ He] | [_ He]]; rewrite He;
        [right; left; reflexivity | left; reflexivity].
    + lia.
    + intros x [<- | Hx]; [lia | apply Hall, Hx].
Qed.

Lemma fold_min_spec (l : list Z) (a : Z) :
  let m := fold_left Z.min l a in
  (m = a \/ In m l) /\ m <= a /\ forall x, In x l -> m <= x.
Proof.
  revert a. induction l as [|y l IH]; intros a; simpl.
  - split; [left; reflexivity |]. split; [lia | contradiction].
  - destruct (IH (Z.min a y)) as (Hm & Hle & Hall).
    split; [| split].
    + destruct Hm as [Hm | Hm]; [| right; right; exact Hm].
      rewrite Hm.
      destruct (Z.min_spec a y) as [[_ He] | [_ He]]; rewrite He;
        [left; reflexivity | right; left; reflexivity].
    + lia.
    + intros x [<- | Hx]; [lia | apply Hall, Hx].
Qed.

(** X20.  The date the date pickers start from is the last date of the dataset.
    On a dataset with rows the bounds of the picker are the dates of some
    rows, every row lies between them, and the default daily view has
    rows; so has the default weekly view, when the week of the last date
    does not run past [date.max].  On a dataset without rows both bounds
    are NaN. *)
Theorem default_date_is_the_last_with_rows (df : list Row) :
  (df = [] -> max_date df = None /\ min_date df = None) /\
  (df <> [] ->
   exists first last,
     min_date df = Some first /\ max_date df = Some last /\
     In first (map date df) /\ In last (map date df) /\
     (forall r, In r df -> first <= date r <= last) /\
     filter_day df last <> [] /\
     (1 <= last <= MAXORDINAL - 6 ->
      exists weekly,
        filtered_df df (SelectWeek last) = Ok weekly /\ weekly <> [])).
Proof.
  split.
  - intros ->. split; reflexivity.
  - intros Hne. destruct df as [|r0 df0]; [congruence |].
    destruct (fold_max_spec (map date df0) (date r0)) as (Hmax & _ & Hub).
    destruct (fold_min_spec (map date df0) (date r0)) as (Hmin & _ & Hlb).
    pose proof (fold_max_spec (map date df0) (date r0)) as (_ & Hge & _).
    pose proof (fold_min_spec (map date df0) (date r0)) as (_ & Hle & _).
    set (last := fold_left Z.max (map date df0) (date r0)) in *.
    set (first := fold_left Z.min (map date df0) (date r0)) in *.
    assert (Hlast : In last (map date (r0 :: df0))).
    { simpl. destruct Hmax as [-> | H]; [left; reflexivity | right; exact H]. }
    assert (Hfirst : In first (map date (r0 :: df0))).
    { simpl. destruct Hmin as [-> | H]; [left; reflexivity | right; exact H]. }
    assert (Hday : filter_day (r0 :: df0) last <> []).
    { apply in_map_iff in Hlast. destruct Hlast as (r & Hr1 & Hr2).
      intros Hnil.
      assert (Hfr : In r (filter_day (r0 :: df0) last))
        by (apply filter_day_In; split; assumption).
      rewrite Hnil in Hfr. exact Hfr. }
    exists first, last.
    split; [reflexivity |]. split; [reflexivity |].
    split; [exact Hfirst |]. split; [exact Hlast |].
    split; [| split; [exact Hday |]].
    + intros r [<- | Hr]; [lia |].
      split; [apply Hlb | apply Hub]; apply in_map; exact Hr.
    + intros Hrange.
      pose proof (weekday_range last) as Hw.
      assert (Hws : week_start last = Ok (last - weekday last))
        by (apply week_start_ok; unfold MAXORDINAL in *; lia).
      assert (H1 : 1 <= last - weekday last).
      { unfold weekday in *. Z.to_euclidean_division_equations. lia. }
      exists (filter_range (r0 :: df0) (last - weekday last)
                (last - weekday last + 6)).
      split.
      * simpl filtered_df. rewrite Hws. simpl bind.
        rewrite add_days_in_range by (unfold MAXORDINAL in *; lia).
        reflexivity.
      * apply in_map_iff in Hlast. destruct Hlast as (r & Hr1 & Hr2).
        intros Hnil.
        assert (Hfr : In r (filter_range (r0 :: df0) (last - weekday last)
                              (last - weekday last + 6)))
          by (apply filter_range_In; split; [exact Hr2 | lia]).
        rewrite Hnil in Hfr. exact Hfr.
Qed.

(** ** Records with coordinates *)


(** ** Months partition the dataset *)

Lemma sum_map_perm {A : Type} (f : A -> Z) (l l' : list A) :
  Permutation l l' ->
  fold_right Z.add 0 (map f l) = fold_right Z.add 0 (map f l').
Proof.
  induction 1 as [| x l l' _ IH | x y l | l l' l'' _ IH1 _ IH2]; simpl;
    lia.
Qed.

Lemma tally_total_by_keys (s : list string) :
  fold_right Z.add 0 (map (fun k => occurrences k s) (map fst (tally s)))
  = len s.
Proof.
  rewrite <- (tally_by_total String.eqb String.eqb_spec s).
  change (tally_by String.eqb s) with (tally s).
  unfold total_count. f_equal. rewrite map_map.
  apply map_ext_in. intros [k n] Hkn. simpl.
  apply tally_In in Hkn. destruct Hkn as [_ ->]. reflexivity.
Qed.

(** X21.  The monthly views split the dataset: every row is in the view of
    exactly one of the offered months, and the totals of the views of all
    offered months add up to the number of rows of the dataset. *)
Theorem monthly_views_partition_the_dataset (df : list Row) :
  (forall r, In r df ->
             exists m, In m (months df) /\
                       In r (filter_month df (Some m)) /\
                       forall m', In r (filter_month df (Some m')) ->
                                  m' = m) /\
  fold_right Z.add 0
    (map (fun m => total_crimes (filter_month df (Some m))) (months df))
  = len df.
Proof.
  split.
  - intros r Hr. exists (month r). split; [| split].
    + apply months_In, in_map, Hr.
    + apply filter_month_In. split; [exact Hr | reflexivity].
    + intros m' Hm'. apply filter_month_In in Hm'.
      destruct Hm' as [_ Heq]. congruence.
  - assert (Hview : forall m,
               total_crimes (filter_month df (Some m))
               = occurrences m (map month df)).
    { intros m. unfold total_crimes, filter_month, occurrences.
      induction df as [|r df IH]; [reflexivity |].
      cbn [filter map].
      change (cell_eqb (Some m) (month r)) with (String.eqb m (month r)).
      destruct (String.eqb m (month r)); rewrite ?len_cons, IH;
        reflexivity. }
    rewrite (map_ext _ _ Hview).
    assert (Hperm : Permutation (months df) (map fst (tally (map month df)))).
    { apply NoDup_Permutation.
      - apply months_NoDup.
      - apply tally_keys_NoDup.
      - intros m. rewrite months_In. split.
        + intros Hm. apply in_map_iff.
          exists (m, occurrences m (map month df)).
          split; [reflexivity |]. apply tally_In. tauto.
        + intros Hm. apply in_map_iff in Hm.
          destruct Hm as ([k n] & <- & Hkn). apply tally_In in Hkn. tauto. }
    rewrite (sum_map_perm _ _ _ Hperm), tally_total_by_keys.
    unfold len. rewrite length_map. reflexivity.
Qed.
